(** * Line Select: outwards / inwards, up / down

    A shallow embedding of the selection transforms of the
    [line-select-quad] editor extension, and the properties of its
    specification checked against them.

    The repository holds two versions of the transforms:
    - [src/extension.ts], embedded in [Module Extension]: every call snaps
      the selection to whole lines and steps by one line;
    - the second TypeScript file (the one that defines
      [hasPartialLineSelection]), embedded in [Module Part001]: a partial
      selection is only snapped, a full-line selection is stepped.
    The helpers [posLineStart], [posEndForExclusiveLine], [buildSelection]
    and [clamp] are the same text in both files and are embedded once. *)

From Stdlib Require Import ZArith NArith List String Bool Lia.
Import ListNotations.

Open Scope Z_scope.

(** ** Exceptions

    The code itself throws nothing; the two host calls it makes can:
    [new vscode.Position] rejects a negative component and
    [TextDocument.lineAt] rejects a line outside [0, lineCount). *)

Inductive exn : Type :=
| IllegalArgument   (* new Position(line, character) with a negative component *)
| IllegalLine.      (* doc.lineAt(line) with line outside the document *)

Inductive result (A : Type) : Type :=
| Ok (a : A)
| Throw (e : exn).

Arguments Ok {A} a.
Arguments Throw {A} e.

Definition bind {A B : Type} (m : result A) (k : A -> result B) : result B :=
  match m with
  | Ok a => k a
  | Throw e => Throw e
  end.

Notation "x <- m ;; k" := (bind m (fun x => k))
  (at level 61, m at next level, right associativity).
Notation "' p <- m ;; k" := (bind m (fun x => let 'p := x in k))
  (at level 61, p pattern, m at next level, right associativity).

Fixpoint mapM {A B : Type} (f : A -> result B) (l : list A) : result (list B) :=
  match l with
  | [] => Ok []
  | a :: l' => b <- f a ;; bs <- mapM f l' ;; Ok (b :: bs)
  end.

(** ** Host data: positions, selections, documents *)

(** A position is a pair of non-negative integers: the constructor of the
    host class refuses anything else, so the components are naturals and
    the arithmetic of the code is done on their images in [Z]. *)
Record Position : Type := mkPosition { line : N; character : N }.

Definition newPosition (l c : Z) : result Position :=
  if (l <? 0) || (c <? 0) then Throw IllegalArgument
  else Ok (mkPosition (Z.to_N l) (Z.to_N c)).

Definition lineZ (p : Position) : Z := Z.of_N (line p).
Definition characterZ (p : Position) : Z := Z.of_N (character p).

Definition isBefore (p q : Position) : bool :=
  (lineZ p <? lineZ q)
  || ((lineZ p =? lineZ q) && (characterZ p <? characterZ q)).

Definition isEqual (p q : Position) : bool :=
  (lineZ p =? lineZ q) && (characterZ p =? characterZ q).

(** [new vscode.Selection(anchor, active)]; [start] and [end] are the two
    ends in document order, as the host's range class orders them. *)
Record Selection : Type := mkSelection { anchor : Position; active : Position }.

Definition start (s : Selection) : Position :=
  if isBefore (anchor s) (active s) then anchor s else active s.

Definition end_ (s : Selection) : Position :=
  if isBefore (anchor s) (active s) then active s else anchor s.

Definition isEmpty (s : Selection) : bool := isEqual (start s) (end_ s).

(** A document is its sequence of lines. *)
Record TextDocument : Type := mkDocument { lines : list string }.

Record TextLine : Type := mkTextLine { lineNumber : N; text : string }.

Definition lineCount (doc : TextDocument) : Z := Z.of_nat (List.length (lines doc)).

Definition lineAt (doc : TextDocument) (i : Z) : result TextLine :=
  if (i <? 0) || (lineCount doc <=? i) then Throw IllegalLine
  else match nth_error (lines doc) (Z.to_nat i) with
       | Some s => Ok (mkTextLine (Z.to_N i) s)
       | None => Throw IllegalLine
       end.

(** [textLine.text.length] and [textLine.range.end]. *)
Definition textLength (tl : TextLine) : Z := Z.of_nat (String.length (text tl)).

Definition rangeEnd (tl : TextLine) : Position :=
  mkPosition (lineNumber tl) (N.of_nat (String.length (text tl))).

Record TextEditor : Type :=
  mkEditor { document : TextDocument; selections : list Selection }.

(** ** Helpers shared by the two files *)

Definition posLineStart (doc : TextDocument) (line : Z) : result Position :=
  let clamped := Z.max 0 (Z.min line (lineCount doc - 1)) in
  newPosition clamped 0.

Definition posEndForExclusiveLine (doc : TextDocument) (exclLine : Z)
  : result Position :=
  if exclLine <? lineCount doc then newPosition exclLine 0
  else tl <- lineAt doc (lineCount doc - 1) ;; Ok (rangeEnd tl).

Definition buildSelection (doc : TextDocument) (top bottomExclusive : Z)
  (anchorAtEnd : bool) : result Selection :=
  startPos <- posLineStart doc top ;;
  endPos <- posEndForExclusiveLine doc bottomExclusive ;;
  Ok (if anchorAtEnd then mkSelection endPos startPos
      else mkSelection startPos endPos).

Definition clamp (n lo hi : Z) : Z := Z.max lo (Z.min hi n).

(** The two ends of a selection as the code recomputes them. *)
Definition pMinOf (sel : Selection) : Position :=
  if isBefore (start sel) (end_ sel) then start sel else end_ sel.

Definition pMaxOf (sel : Selection) : Position :=
  if isBefore (start sel) (end_ sel) then end_ sel else start sel.

(** Apply a per-selection transform to every selection of the editor. *)
Definition mapSelections (f : TextDocument -> Selection -> result Selection)
  (editor : TextEditor) : result TextEditor :=
  sels <- mapM (f (document editor)) (selections editor) ;;
  Ok (mkEditor (document editor) sels).

(** ** [src/extension.ts] *)

Module Extension.

Definition fullLineRange (sel : Selection) (doc : TextDocument)
  : result (Z * Z) :=
  if isEmpty sel then
    let L := lineZ (active sel) in
    Ok (L, Z.min (L + 1) (lineCount doc))
  else
    let pMin := pMinOf sel in
    let pMax := pMaxOf sel in
    let top := lineZ pMin in
    let bottomExclusive :=
      if characterZ pMax =? 0 then lineZ pMax
      else Z.min (lineZ pMax + 1) (lineCount doc) in
    if bottomExclusive <=? top then Ok (top, Z.min (top + 1) (lineCount doc))
    else Ok (top, bottomExclusive).

Definition outwardsDownSel (doc : TextDocument) (sel : Selection)
  : result Selection :=
  if isEmpty sel then
    let L := lineZ (active sel) in
    buildSelection doc L (L + 1) false
  else
    '(top, botEx) <- fullLineRange sel doc ;;
    let botEx := if botEx <? lineCount doc then botEx + 1 else botEx in
    buildSelection doc top botEx false.

Definition inwardsDownSel (doc : TextDocument) (sel : Selection)
  : result Selection :=
  '(top, botEx) <- fullLineRange sel doc ;;
  let size := botEx - top in
  if size <=? 1 then
    caret <- posLineStart doc top ;;
    Ok (mkSelection caret caret)
  else
    let botEx := botEx - 1 in
    buildSelection doc top botEx false.

Definition outwardsUpSel (doc : TextDocument) (sel : Selection)
  : result Selection :=
  if isEmpty sel then
    let L := lineZ (active sel) in
    buildSelection doc L (L + 1) true
  else
    '(top, botEx) <- fullLineRange sel doc ;;
    let top := if top >? 0 then top - 1 else top in
    buildSelection doc top botEx true.

Definition inwardsUpSel (doc : TextDocument) (sel : Selection)
  : result Selection :=
  '(top, botEx) <- fullLineRange sel doc ;;
  let size := botEx - top in
  if size <=? 1 then
    let bottomLine := clamp (botEx - 1) 0 (lineCount doc - 1) in
    caret <- posLineStart doc bottomLine ;;
    Ok (mkSelection caret caret)
  else
    let top := top + 1 in
    buildSelection doc top botEx true.

Definition outwardsDown := mapSelections outwardsDownSel.
Definition inwardsDown := mapSelections inwardsDownSel.
Definition outwardsUp := mapSelections outwardsUpSel.
Definition inwardsUp := mapSelections inwardsUpSel.

End Extension.

(** ** The file with [hasPartialLineSelection] *)

Module Part001.

Definition hasPartialLineSelection (sel : Selection) (doc : TextDocument)
  : result bool :=
  if isEmpty sel then Ok false
  else
    let pMin := pMinOf sel in
    let pMax := pMaxOf sel in
    if negb (characterZ pMin =? 0) then Ok true
    else if lineZ pMin =? lineZ pMax then
      lineText <- lineAt doc (lineZ pMin) ;;
      Ok (characterZ pMax <? textLength lineText)
    else Ok (negb (characterZ pMax =? 0)).

Definition fullLineRange (sel : Selection) (doc : TextDocument)
  : result (Z * Z) :=
  if isEmpty sel then
    let L := lineZ (active sel) in
    Ok (L, Z.min (L + 1) (lineCount doc))
  else
    let pMin := pMinOf sel in
    let pMax := pMaxOf sel in
    partial <- hasPartialLineSelection sel doc ;;
    if partial then
      let topLine := lineZ pMin in
      let bottomLine := lineZ pMax in
      let actualBottomLine :=
        if characterZ pMax =? 0 then bottomLine - 1 else bottomLine in
      Ok (topLine, actualBottomLine + 1)
    else
      let top := lineZ pMin in
      let bottomExclusive := lineZ pMax in
      Ok (top, bottomExclusive).

Definition outwardsDownSel (doc : TextDocument) (sel : Selection)
  : result Selection :=
  if isEmpty sel then
    let L := lineZ (active sel) in
    buildSelection doc L (L + 1) false
  else
    partial <- hasPartialLineSelection sel doc ;;
    if partial then
      '(top, botEx) <- fullLineRange sel doc ;;
      buildSelection doc top botEx false
    else
      '(top, botEx) <- fullLineRange sel doc ;;
      let botEx := if botEx <? lineCount doc then botEx + 1 else botEx in
      buildSelection doc top botEx false.

Definition inwardsDownSel (doc : TextDocument) (sel : Selection)
  : result Selection :=
  partial <- hasPartialLineSelection sel doc ;;
  if partial then
    '(top, botEx) <- fullLineRange sel doc ;;
    buildSelection doc top botEx false
  else
    '(top, botEx) <- fullLineRange sel doc ;;
    let size := botEx - top in
    if size <=? 1 then
      caret <- posLineStart doc top ;;
      Ok (mkSelection caret caret)
    else
      let botEx := botEx - 1 in
      buildSelection doc top botEx false.

Definition outwardsUpSel (doc : TextDocument) (sel : Selection)
  : result Selection :=
  if isEmpty sel then
    let L := lineZ (active sel) in
    buildSelection doc L (L + 1) true
  else
    partial <- hasPartialLineSelection sel doc ;;
    if partial then
      '(top, botEx) <- fullLineRange sel doc ;;
      buildSelection doc top botEx true
    else
      '(top, botEx) <- fullLineRange sel doc ;;
      let top := if top >? 0 then top - 1 else top in
      buildSelection doc top botEx true.

Definition inwardsUpSel (doc : TextDocument) (sel : Selection)
  : result Selection :=
  partial <- hasPartialLineSelection sel doc ;;
  if partial then
    '(top, botEx) <- fullLineRange sel doc ;;
    buildSelection doc top botEx true
  else
    '(top, botEx) <- fullLineRange sel doc ;;
    let size := botEx - top in
    if size <=? 1 then
      let bottomLine := clamp (botEx - 1) 0 (lineCount doc - 1) in
      caret <- posLineStart doc bottomLine ;;
      Ok (mkSelection caret caret)
    else
      let top := top + 1 in
      buildSelection doc top botEx true.

Definition outwardsDown := mapSelections outwardsDownSel.
Definition inwardsDown := mapSelections inwardsDownSel.
Definition outwardsUp := mapSelections outwardsUpSel.
Definition inwardsUp := mapSelections inwardsUpSel.

End Part001.

(** ** A five-line document for the examples *)

Definition pos (l c : N) : Position := mkPosition l c.
Definition caretAt (l c : N) : Selection := mkSelection (pos l c) (pos l c).

Definition doc5 : TextDocument :=
  mkDocument ["alpha"; "beta"; "gamma"; "delta"; "epsilon"]%string.

(** ** Vocabulary of the properties *)

(** The whole-line range a partial selection is snapped to. *)
Definition snappedRange (sel : Selection) : Z * Z :=
  (lineZ (start sel),
   if characterZ (end_ sel) =? 0 then lineZ (end_ sel)
   else lineZ (end_ sel) + 1).

(** A selection lies inside the document when its later end does. *)
Definition insideDocument (doc : TextDocument) (sel : Selection) : Prop :=
  lineZ (end_ sel) < lineCount doc.

(** The end-of-document position: the end of the last line's text. *)
Definition endOfDocument (doc : TextDocument) : result Position :=
  tl <- lineAt doc (lineCount doc - 1) ;; Ok (rangeEnd tl).

(** The selection covers exactly line [L]: it runs from column 0 of [L]
    either to column 0 of the next line or, when [L] has text, to the end
    of that text. *)
Definition coversLine (doc : TextDocument) (sel : Selection) (L : N) : Prop :=
  Z.of_N L < lineCount doc
  /\ start sel = pos L 0
  /\ (end_ sel = pos (L + 1) 0
      \/ exists tl, lineAt doc (Z.of_N L) = Ok tl
                    /\ 0 < textLength tl /\ end_ sel = rangeEnd tl).

(** The command table of [activate]. *)
Inductive Command : Type := OutwardsUp | InwardsUp | OutwardsDown | InwardsDown.

(** The up commands pin the bottom ([anchorAtEnd] is [true]). *)
Definition pinsBottom (c : Command) : bool :=
  match c with
  | OutwardsUp | InwardsUp => true
  | OutwardsDown | InwardsDown => false
  end.

Definition isOutward (c : Command) : bool :=
  match c with
  | OutwardsUp | OutwardsDown => true
  | InwardsUp | InwardsDown => false
  end.

(** The function each command is bound to, in either file. *)
Definition part001Handler (c : Command)
  : TextDocument -> Selection -> result Selection :=
  match c with
  | OutwardsUp => Part001.outwardsUpSel
  | InwardsUp => Part001.inwardsUpSel
  | OutwardsDown => Part001.outwardsDownSel
  | InwardsDown => Part001.inwardsDownSel
  end.

Definition extensionHandler (c : Command)
  : TextDocument -> Selection -> result Selection :=
  match c with
  | OutwardsUp => Extension.outwardsUpSel
  | InwardsUp => Extension.inwardsUpSel
  | OutwardsDown => Extension.outwardsDownSel
  | InwardsDown => Extension.inwardsDownSel
  end.

(** The step of sections 4.3 to 4.6 of the specification, on line ranges:
    one line more on the free side for an outward command when there is
    room, one line less for an inward command, and the empty range at the
    caret line when an inward command has at most one line left. *)
Definition stepRange (c : Command) (lc top botEx : Z) : Z * Z :=
  match c with
  | OutwardsDown => (top, if botEx <? lc then botEx + 1 else botEx)
  | OutwardsUp => (if top >? 0 then top - 1 else top, botEx)
  | InwardsDown =>
      if botEx - top <=? 1 then (top, top) else (top, botEx - 1)
  | InwardsUp =>
      if botEx - top <=? 1 then
        let L := clamp (botEx - 1) 0 (lc - 1) in (L, L)
      else (top + 1, botEx)
  end.

(** Which selections a command steps: the outward ones leave a caret and a
    partial selection at their resolved range, the inward ones a partial
    selection only. *)
Definition isStepped (c : Command) (empty partial : bool) : bool :=
  negb partial && negb (isOutward c && empty).

Definition rangeAfter (c : Command) (lc : Z) (empty partial : bool)
  (top botEx : Z) : Z * Z :=
  if isStepped c empty partial then stepRange c lc top botEx else (top, botEx).

(** [out] selects the lines [t, b): it starts at column 0 of line [t] and
    ends where the builder puts the end of exclusive line [b]. *)
Definition selectsLines (doc : TextDocument) (out : Selection) (t b : Z) : Prop :=
  start out = mkPosition (Z.to_N t) 0
  /\ posEndForExclusiveLine doc b = Ok (end_ out).

(** Column 0 of a line of the document. *)
Definition isLineStart (doc : TextDocument) (p : Position) : bool :=
  (characterZ p =? 0) && (lineZ p <? lineCount doc).

Definition isEndOfDocument (doc : TextDocument) (p : Position) : bool :=
  match endOfDocument doc with
  | Ok e => isEqual p e
  | Throw _ => false
  end.

(** A caret at column 0 of a line of the document, or a non-empty selection
    from column 0 of a line to column 0 of a line or to the end of the
    document. *)
Definition lineAligned (doc : TextDocument) (out : Selection) : bool :=
  if isEmpty out then isLineStart doc (active out)
  else isLineStart doc (start out)
       && (isLineStart doc (end_ out) || isEndOfDocument doc (end_ out)).

(** The two ways a command returns: through [buildSelection], or as the
    caret made from a [posLineStart]. *)
Definition builtBy (doc : TextDocument) (out : Selection) : Prop :=
  (exists t b pin, buildSelection doc t b pin = Ok out)
  \/ (exists l p, posLineStart doc l = Ok p /\ out = mkSelection p p).

(** The size of the range before and after, and its bounds: [resolve] is
    the resolver of a file and [handler] its command table. *)
Definition monotoneBounded
  (resolve : Selection -> TextDocument -> result (Z * Z))
  (handler : Command -> TextDocument -> Selection -> result Selection)
  (doc : TextDocument) (sel : Selection) (c : Command) : Prop :=
  exists top botEx t' b' out,
    resolve sel doc = Ok (top, botEx)
    /\ handler c doc sel = Ok out
    /\ buildSelection doc t' b' (pinsBottom c) = Ok out
    /\ selectsLines doc out t' b'
    /\ 0 <= t' <= b' /\ b' <= lineCount doc
    /\ (isOutward c = true -> botEx - top <= b' - t')
    /\ (isOutward c = false -> b' - t' <= botEx - top).

(** The pinned side before and after, on the resolved range. *)
Definition pinKept
  (resolve : Selection -> TextDocument -> result (Z * Z))
  (handler : Command -> TextDocument -> Selection -> result Selection)
  (doc : TextDocument) (sel : Selection) (c : Command) : Prop :=
  exists top botEx out,
    resolve sel doc = Ok (top, botEx)
    /\ handler c doc sel = Ok out
    /\ (pinsBottom c = false -> lineZ (start out) = lineZ (start sel))
    /\ (pinsBottom c = true -> isEmpty out = false ->
        posEndForExclusiveLine doc botEx = Ok (end_ out)
        /\ (isEmpty sel = false -> characterZ (end_ sel) = 0 ->
            end_ out = end_ sel)).

(** [src/extension.ts] classifies nothing: no selection is partial. *)
Definition noClassification (sel : Selection) (doc : TextDocument) : result bool :=
  Ok false.

(** The last line a selection covers: the caret's line; for a non-empty
    selection the line of its bottom endpoint, or the line before when
    that endpoint is at column 0. *)
Definition lastLine (sel : Selection) : Z :=
  if isEmpty sel then lineZ (active sel)
  else if characterZ (end_ sel) =? 0 then lineZ (end_ sel) - 1
       else lineZ (end_ sel).

(** The top endpoint of [out] is on the line of the top endpoint of [sel]. *)
Definition topKept (sel out : Selection) : Prop :=
  lineZ (start out) = lineZ (start sel).

(** The bottom endpoint of [out] is the end of the last line [sel] covers;
    it is the bottom endpoint of [sel] itself when that one is at column 0. *)
Definition bottomKept (doc : TextDocument) (sel out : Selection) : Prop :=
  posEndForExclusiveLine doc (lastLine sel + 1) = Ok (end_ out)
  /\ (isEmpty sel = false -> characterZ (end_ sel) = 0 -> end_ out = end_ sel).

(** The selections the second file resolves to their covered lines: all
    but the non-empty ones classified as full lines that end inside a
    line (those of C2). *)
Definition endsOnBoundary (doc : TextDocument) (sel : Selection) : Prop :=
  isEmpty sel = true
  \/ Part001.hasPartialLineSelection sel doc = Ok true
  \/ characterZ (end_ sel) = 0.

(** The end of the selection is a position of the document: on one of its
    lines and not beyond that line's text. *)
Definition validEnd (doc : TextDocument) (sel : Selection) : Prop :=
  exists tl,
    lineAt doc (lineZ (end_ sel)) = Ok tl
    /\ characterZ (end_ sel) <= textLength tl.

(** The lines a selection touches, at least one: the guarded resolver of
    [src/extension.ts], used as a measure on any selection. *)
Definition coveredLines (sel : Selection) (doc : TextDocument) : result (Z * Z) :=
  Extension.fullLineRange sel doc.

(** The lines touched before and after a command. *)
Definition coveredMonotone
  (handler : Command -> TextDocument -> Selection -> result Selection)
  (doc : TextDocument) (sel : Selection) (c : Command) : Prop :=
  exists top botEx t1 b1 out,
    handler c doc sel = Ok out
    /\ coveredLines sel doc = Ok (top, botEx)
    /\ coveredLines out doc = Ok (t1, b1)
    /\ 0 <= t1 < b1 /\ b1 <= lineCount doc
    /\ (isOutward c = true -> botEx - top <= b1 - t1)
    /\ (isOutward c = false -> b1 - t1 <= botEx - top).

(** [n] calls of a per-selection transform, each on the result of the one
    before: the same key pressed [n] times. *)
Fixpoint repeatM (n : nat) (f : Selection -> result Selection)
  (s : Selection) : result Selection :=
  match n with
  | O => Ok s
  | S n' => s' <- repeatM n' f s ;; f s'
  end.

(** The commands on the editor, through the command table. *)
Definition part001Command (c : Command) : TextEditor -> result TextEditor :=
  mapSelections (part001Handler c).

Definition extensionCommand (c : Command) : TextEditor -> result TextEditor :=
  mapSelections (extensionHandler c).

(** The selection from column 0 of line [t] to column 0 of line [b], with
    the anchor at the bottom when [pin] is set. *)
Definition lineBlock (t b : Z) (pin : bool) : Selection :=
  if pin then mkSelection (mkPosition (Z.to_N b) 0) (mkPosition (Z.to_N t) 0)
  else mkSelection (mkPosition (Z.to_N t) 0) (mkPosition (Z.to_N b) 0).

(** The same selection made in the other direction. *)
Definition reversed (sel : Selection) : Selection :=
  mkSelection (active sel) (anchor sel).


(** ** Basic facts on positions and selections *)

Ltac zbool :=
  repeat match goal with
    | H : context [Z.gtb ?a ?b] |- _ => rewrite (Z.gtb_ltb a b) in H
    | |- context [Z.gtb ?a ?b] => rewrite (Z.gtb_ltb a b)
    | H : context [Z.ltb ?a ?b] |- _ => destruct (Z.ltb_spec a b)
    | H : context [Z.leb ?a ?b] |- _ => destruct (Z.leb_spec a b)
    | H : context [Z.eqb ?a ?b] |- _ => destruct (Z.eqb_spec a b)
    | |- context [Z.ltb ?a ?b] => destruct (Z.ltb_spec a b)
    | |- context [Z.leb ?a ?b] => destruct (Z.leb_spec a b)
    | |- context [Z.eqb ?a ?b] => destruct (Z.eqb_spec a b)
    end;
  cbn [negb andb orb bind] in *.

(** Expose the components of literal positions, and nothing else. *)
Ltac posfields :=
  unfold lineZ, characterZ, pos, rangeEnd, textLength in *;
  cbn [line character lineNumber text] in *.

Lemma position_eq (p q : Position) :
  lineZ p = lineZ q -> characterZ p = characterZ q -> p = q.
Proof.
  destruct p as [pl pc], q as [ql qc]; unfold lineZ, characterZ; cbn.
  intros Hl Hc. f_equal; lia.
Qed.

Lemma lineZ_nonneg (p : Position) : 0 <= lineZ p.
Proof. unfold lineZ; lia. Qed.

Lemma characterZ_nonneg (p : Position) : 0 <= characterZ p.
Proof. unfold characterZ; lia. Qed.

Lemma lineCount_nonneg (doc : TextDocument) : 0 <= lineCount doc.
Proof. unfold lineCount; lia. Qed.

(** The ends of a non-empty selection are strictly ordered ... *)
Lemma nonempty_ordered (sel : Selection) :
  isEmpty sel = false -> isBefore (start sel) (end_ sel) = true.
Proof.
  unfold isEmpty, start, end_.
  destruct (isBefore (anchor sel) (active sel)) eqn:Hb; [ now rewrite Hb | ].
  unfold isEqual, isBefore in *. zbool; intros; try discriminate; try lia; reflexivity.
Qed.

(** ... and the ends of an empty one are the same position, the caret. *)
Lemma empty_caret (sel : Selection) :
  isEmpty sel = true ->
  start sel = active sel /\ end_ sel = active sel /\ anchor sel = active sel.
Proof.
  unfold isEmpty, start, end_.
  destruct (isBefore (anchor sel) (active sel)) eqn:Hb;
    unfold isEqual, isBefore in *; zbool; intros; try discriminate;
    repeat split; try reflexivity; try (apply position_eq; lia).
Qed.

Lemma nonempty_pMin (sel : Selection) :
  isEmpty sel = false -> pMinOf sel = start sel.
Proof. intros H. unfold pMinOf. now rewrite (nonempty_ordered sel H). Qed.

Lemma nonempty_pMax (sel : Selection) :
  isEmpty sel = false -> pMaxOf sel = end_ sel.
Proof. intros H. unfold pMaxOf. now rewrite (nonempty_ordered sel H). Qed.

Lemma nonempty_lt (sel : Selection) :
  isEmpty sel = false ->
  lineZ (start sel) < lineZ (end_ sel)
  \/ (lineZ (start sel) = lineZ (end_ sel)
      /\ characterZ (start sel) < characterZ (end_ sel)).
Proof.
  intros H. pose proof (nonempty_ordered sel H) as Hb.
  unfold isBefore in Hb. zbool; try discriminate; lia.
Qed.

Lemma start_le_end (sel : Selection) : lineZ (start sel) <= lineZ (end_ sel).
Proof.
  destruct (isEmpty sel) eqn:He.
  - destruct (empty_caret sel He) as (-> & -> & _). lia.
  - destruct (nonempty_lt sel He); lia.
Qed.

(** ** The host calls succeed inside the document *)

Lemma lineAt_inside (doc : TextDocument) (i : Z) :
  0 <= i < lineCount doc ->
  exists s, nth_error (lines doc) (Z.to_nat i) = Some s
            /\ lineAt doc i = Ok (mkTextLine (Z.to_N i) s).
Proof.
  intros Hi. unfold lineAt, lineCount in *.
  destruct (nth_error (lines doc) (Z.to_nat i)) as [s|] eqn:Hn.
  - exists s. split; [reflexivity|]. zbool; try lia. reflexivity.
  - apply nth_error_None in Hn. lia.
Qed.

Lemma lineAt_outside (doc : TextDocument) (i : Z) :
  i < 0 \/ lineCount doc <= i -> lineAt doc i = Throw IllegalLine.
Proof. intros Hi. unfold lineAt. zbool; try lia; reflexivity. Qed.

Lemma lineAt_lineNumber (doc : TextDocument) (i : Z) (tl : TextLine) :
  lineAt doc i = Ok tl -> 0 <= i < lineCount doc /\ Z.of_N (lineNumber tl) = i.
Proof.
  unfold lineAt. zbool; try discriminate.
  destruct (nth_error _ _); [|discriminate].
  intros [= <-]. cbn. lia.
Qed.

Lemma newPosition_nonneg (l c : Z) :
  0 <= l -> 0 <= c -> newPosition l c = Ok (mkPosition (Z.to_N l) (Z.to_N c)).
Proof. intros. unfold newPosition. zbool; try lia; reflexivity. Qed.

(** [posLineStart] never fails: the clamp keeps the line at 0 or above. *)
Lemma posLineStart_clamped (doc : TextDocument) (l : Z) :
  posLineStart doc l
  = Ok (mkPosition (Z.to_N (Z.max 0 (Z.min l (lineCount doc - 1)))) 0).
Proof. unfold posLineStart. rewrite newPosition_nonneg by lia. reflexivity. Qed.

Lemma posLineStart_inside (doc : TextDocument) (l : Z) :
  0 <= l < lineCount doc -> posLineStart doc l = Ok (mkPosition (Z.to_N l) 0).
Proof.
  intros. rewrite posLineStart_clamped. do 2 f_equal. f_equal. lia.
Qed.

Lemma posEndForExclusiveLine_inside (doc : TextDocument) (b : Z) :
  0 <= b < lineCount doc ->
  posEndForExclusiveLine doc b = Ok (mkPosition (Z.to_N b) 0).
Proof.
  intros. unfold posEndForExclusiveLine. zbool; try lia.
  now rewrite newPosition_nonneg by lia.
Qed.

Lemma posEndForExclusiveLine_past (doc : TextDocument) (b : Z) :
  lineCount doc <= b ->
  posEndForExclusiveLine doc b
  = (tl <- lineAt doc (lineCount doc - 1) ;; Ok (rangeEnd tl)).
Proof. intros. unfold posEndForExclusiveLine. zbool; try lia. reflexivity. Qed.

Lemma posEndForExclusiveLine_total (doc : TextDocument) (b : Z) :
  1 <= lineCount doc -> 0 <= b ->
  exists p, posEndForExclusiveLine doc b = Ok p.
Proof.
  intros Hlc Hb. destruct (Z.lt_ge_cases b (lineCount doc)).
  - rewrite posEndForExclusiveLine_inside by lia. eauto.
  - rewrite posEndForExclusiveLine_past by lia.
    destruct (lineAt_inside doc (lineCount doc - 1)) as (s & _ & ->); [lia|].
    cbn. eauto.
Qed.

Lemma buildSelection_total (doc : TextDocument) (top b : Z) (pin : bool) :
  1 <= lineCount doc -> 0 <= b ->
  exists out, buildSelection doc top b pin = Ok out.
Proof.
  intros Hlc Hb. unfold buildSelection. rewrite posLineStart_clamped.
  destruct (posEndForExclusiveLine_total doc b Hlc Hb) as [p ->].
  cbn. eauto.
Qed.

(** ** The classification and the resolver of the second file *)

Lemma hasPartial_empty (doc : TextDocument) (sel : Selection) :
  isEmpty sel = true -> Part001.hasPartialLineSelection sel doc = Ok false.
Proof. intros He. unfold Part001.hasPartialLineSelection. now rewrite He. Qed.

Lemma hasPartial_nonempty (doc : TextDocument) (sel : Selection) :
  isEmpty sel = false ->
  Part001.hasPartialLineSelection sel doc
  = if negb (characterZ (start sel) =? 0) then Ok true
    else if lineZ (start sel) =? lineZ (end_ sel) then
      lineText <- lineAt doc (lineZ (start sel)) ;;
      Ok (characterZ (end_ sel) <? textLength lineText)
    else Ok (negb (characterZ (end_ sel) =? 0)).
Proof.
  intros He. unfold Part001.hasPartialLineSelection.
  rewrite He, (nonempty_pMin sel He), (nonempty_pMax sel He). reflexivity.
Qed.

Lemma partial_nonempty (doc : TextDocument) (sel : Selection) :
  Part001.hasPartialLineSelection sel doc = Ok true -> isEmpty sel = false.
Proof.
  destruct (isEmpty sel) eqn:He; [|reflexivity].
  rewrite (hasPartial_empty doc sel He). discriminate.
Qed.

Lemma fullLineRange_partial (doc : TextDocument) (sel : Selection) :
  Part001.hasPartialLineSelection sel doc = Ok true ->
  Part001.fullLineRange sel doc = Ok (snappedRange sel).
Proof.
  intros Hp. pose proof (partial_nonempty doc sel Hp) as He.
  unfold Part001.fullLineRange, snappedRange.
  rewrite He, Hp, (nonempty_pMin sel He), (nonempty_pMax sel He). cbn.
  destruct (characterZ (end_ sel) =? 0); do 2 f_equal; lia.
Qed.

Lemma fullLineRange_full (doc : TextDocument) (sel : Selection) :
  isEmpty sel = false ->
  Part001.hasPartialLineSelection sel doc = Ok false ->
  Part001.fullLineRange sel doc = Ok (lineZ (start sel), lineZ (end_ sel)).
Proof.
  intros He Hp. unfold Part001.fullLineRange.
  rewrite He, Hp, (nonempty_pMin sel He), (nonempty_pMax sel He). reflexivity.
Qed.

Lemma fullLineRange_empty (doc : TextDocument) (sel : Selection) :
  isEmpty sel = true ->
  Part001.fullLineRange sel doc
  = Ok (lineZ (active sel), Z.min (lineZ (active sel) + 1) (lineCount doc)).
Proof. intros He. unfold Part001.fullLineRange. now rewrite He. Qed.

(** A partial selection snaps to at least one line, and to non-negative
    bounds. *)
Lemma snappedRange_partial_bounds (doc : TextDocument) (sel : Selection) :
  Part001.hasPartialLineSelection sel doc = Ok true ->
  0 <= fst (snappedRange sel) < snd (snappedRange sel).
Proof.
  intros Hp. pose proof (partial_nonempty doc sel Hp) as He.
  rewrite (hasPartial_nonempty doc sel He) in Hp.
  pose proof (nonempty_lt sel He). pose proof (lineZ_nonneg (start sel)).
  pose proof (characterZ_nonneg (start sel)).
  unfold snappedRange; cbn [fst snd].
  zbool; try lia; try discriminate.
Qed.

(** ** A partial selection is snapped, not stepped, by the second file *)

(** In the file that classifies selections, a selection classified
    Partial (which is then non-empty) is resolved to the whole-line range
    [snappedRange sel], and each of the four transforms returns exactly the
    selection built from that range, bottom-pinned for the two up
    transforms and top-pinned for the two down transforms: the range is
    neither grown nor shrunk in the same call.  On a document with at
    least one line that selection is built without failure. *)
Theorem partial_selection_only_snaps (doc : TextDocument) (sel : Selection) :
  Part001.hasPartialLineSelection sel doc = Ok true ->
  let '(top, botEx) := snappedRange sel in
  isEmpty sel = false
  /\ Part001.fullLineRange sel doc = Ok (top, botEx)
  /\ Part001.outwardsUpSel doc sel = buildSelection doc top botEx true
  /\ Part001.inwardsUpSel doc sel = buildSelection doc top botEx true
  /\ Part001.outwardsDownSel doc sel = buildSelection doc top botEx false
  /\ Part001.inwardsDownSel doc sel = buildSelection doc top botEx false
  /\ (1 <= lineCount doc ->
      exists up down,
        buildSelection doc top botEx true = Ok up
        /\ buildSelection doc top botEx false = Ok down).
Proof.
  intros Hp.
  pose proof (partial_nonempty doc sel Hp) as He.
  pose proof (fullLineRange_partial doc sel Hp) as Hr.
  pose proof (snappedRange_partial_bounds doc sel Hp) as Hb.
  destruct (snappedRange sel) as [top botEx] eqn:Hs. cbn [fst snd] in Hb.
  repeat split; try assumption.
  - unfold Part001.outwardsUpSel. now rewrite He, Hp, Hr.
  - unfold Part001.inwardsUpSel. now rewrite Hp, Hr.
  - unfold Part001.outwardsDownSel. now rewrite He, Hp, Hr.
  - unfold Part001.inwardsDownSel. now rewrite Hp, Hr.
  - intros Hlc.
    destruct (buildSelection_total doc top botEx true Hlc) as [up Hup]; [lia|].
    destruct (buildSelection_total doc top botEx false Hlc) as [dn Hdn]; [lia|].
    eauto.
Qed.

(** Characters 1 to 3 of line 1 of [doc5]: every transform gives line 1. *)
Lemma partial_selection_only_snaps_witness :
  Part001.hasPartialLineSelection (mkSelection (pos 1 1) (pos 1 3)) doc5 = Ok true
  /\ Part001.outwardsUpSel doc5 (mkSelection (pos 1 1) (pos 1 3))
     = Ok (mkSelection (pos 2 0) (pos 1 0))
  /\ Part001.inwardsDownSel doc5 (mkSelection (pos 1 1) (pos 1 3))
     = Ok (mkSelection (pos 1 0) (pos 2 0)).
Proof.
  pose proof (partial_selection_only_snaps doc5 (mkSelection (pos 1 1) (pos 1 3))
                eq_refl) as H.
  cbv beta iota delta [snappedRange] in H.
  destruct H as (_ & _ & Hup & _ & _ & Hdown & _).
  split; [reflexivity|]. split.
  - rewrite Hup. reflexivity.
  - rewrite Hdown. reflexivity.
Defined.

(** In [src/extension.ts] there is no classification: the same selection is
    snapped and stepped by the one call. *)
Example extension_snaps_and_steps :
  Extension.outwardsDownSel doc5 (mkSelection (pos 1 1) (pos 1 3))
  = Ok (mkSelection (pos 1 0) (pos 3 0)).
Proof. reflexivity. Qed.

(** ** C2: the resolved range covers at least one line *)

(** [src/extension.ts] keeps the guard: inside a document the resolved range
    has a line, and when the first computation yields none the range is
    [(top, min (top + 1) lineCount)]. *)
Lemma extension_fullLineRange_guard (doc : TextDocument) (sel : Selection) :
  insideDocument doc sel ->
  exists top botEx,
    Extension.fullLineRange sel doc = Ok (top, botEx)
    /\ top = lineZ (start sel)
    /\ top < botEx <= lineCount doc.
Proof.
  unfold insideDocument. intros Hin.
  pose proof (start_le_end sel). pose proof (lineZ_nonneg (start sel)).
  unfold Extension.fullLineRange.
  destruct (isEmpty sel) eqn:He.
  - destruct (empty_caret sel He) as (Hs & Hen & _). rewrite Hs, Hen in *.
    eexists _, _. split; [reflexivity|]. lia.
  - rewrite (nonempty_pMin sel He), (nonempty_pMax sel He).
    pose proof (nonempty_lt sel He).
    zbool; eexists _, _; (split; [reflexivity|]); lia.
Qed.

(** The second file has no such guard.  A non-empty selection on one line
    that starts at column 0 and reaches the end of the line's text is not
    partial, and its range is [(L, L)]: no line at all. *)
Lemma part001_fullLineRange_single_line (doc : TextDocument) (sel : Selection) :
  isEmpty sel = false ->
  Part001.hasPartialLineSelection sel doc = Ok false ->
  lineZ (start sel) = lineZ (end_ sel) ->
  Part001.fullLineRange sel doc = Ok (lineZ (start sel), lineZ (start sel)).
Proof.
  intros He Hp Hl. rewrite (fullLineRange_full doc sel He Hp). now rewrite Hl.
Qed.

(** C2 (evaluation at the failing input).  On the one-line document "abc",
    the selection from column 0 to column 3 of line 0 is classified as full
    lines and resolved by the second file to the range (0, 0), for which
    [top < bottomExclusive] is false.  [src/extension.ts] resolves the same
    selection to (0, 1). *)
Theorem part001_fullLineRange_no_line :
  let doc := mkDocument ["abc"%string] in
  let sel := mkSelection (pos 0 0) (pos 0 3) in
  1 <= lineCount doc
  /\ Part001.hasPartialLineSelection sel doc = Ok false
  /\ Part001.fullLineRange sel doc = Ok (0, 0)
  /\ Extension.fullLineRange sel doc = Ok (0, 1).
Proof. cbv zeta. repeat split; try reflexivity; cbv; discriminate. Qed.

(** What the empty range does to the transforms: expanding the selected
    last line upwards lets go of it, and expanding the selected first line
    upwards collapses it to a caret. *)
Example part001_outwardsUp_drops_last_line :
  Part001.outwardsUpSel doc5 (mkSelection (pos 4 0) (pos 4 7))
  = Ok (mkSelection (pos 4 0) (pos 3 0))
  /\ Extension.outwardsUpSel doc5 (mkSelection (pos 4 0) (pos 4 7))
     = Ok (mkSelection (pos 4 7) (pos 3 0)).
Proof. split; reflexivity. Qed.

Example part001_outwardsUp_collapses_first_line :
  Part001.outwardsUpSel doc5 (mkSelection (pos 0 0) (pos 0 5))
  = Ok (caretAt 0 0).
Proof. reflexivity. Qed.

(** ** C5: a selection that ends at the end of the document *)

(** A selection over several lines from column 0 to the end of the
    document, whose last line has text, is classified partial: the test for
    several lines looks at column 0 only. *)
Lemma part001_end_of_document_partial (doc : TextDocument) (sel : Selection) :
  characterZ (start sel) = 0 ->
  lineZ (start sel) < lineZ (end_ sel) ->
  endOfDocument doc = Ok (end_ sel) ->
  0 < characterZ (end_ sel) ->
  Part001.hasPartialLineSelection sel doc = Ok true.
Proof.
  intros Hc Hl _ Hlen.
  assert (He : isEmpty sel = false).
  { unfold isEmpty, isEqual. zbool; try lia; reflexivity. }
  rewrite (hasPartial_nonempty doc sel He). zbool; try lia; reflexivity.
Qed.

(** C5 (evaluation at the failing input).  In [doc5] the selection from
    column 0 of line 3 to the end of the document (line 4, column 7, the
    end of "epsilon") is non-empty, spans two lines, starts at column 0 and
    ends at the end-of-document position; the classification computed by
    [hasPartialLineSelection] is Partial, and every transform therefore
    returns it unchanged up to the pin side. *)
Theorem part001_end_of_document_classified_partial :
  let sel := mkSelection (pos 3 0) (pos 4 7) in
  isEmpty sel = false
  /\ start sel = pos 3 0
  /\ endOfDocument doc5 = Ok (end_ sel)
  /\ Part001.hasPartialLineSelection sel doc5 = Ok true
  /\ Part001.outwardsUpSel doc5 sel = Ok (mkSelection (pos 4 7) (pos 3 0))
  /\ Part001.inwardsUpSel doc5 sel = Ok (mkSelection (pos 4 7) (pos 3 0))
  /\ Part001.inwardsDownSel doc5 sel = Ok sel.
Proof. cbv zeta. repeat split; reflexivity. Qed.

(** The selection of C5 is one the transforms themselves produce: two
    [outwardsDown] from a caret on line 3. *)
Example part001_reaches_end_of_document :
  Part001.outwardsDownSel doc5 (caretAt 3 2) = Ok (mkSelection (pos 3 0) (pos 4 0))
  /\ Part001.outwardsDownSel doc5 (mkSelection (pos 3 0) (pos 4 0))
     = Ok (mkSelection (pos 3 0) (pos 4 7)).
Proof. split; reflexivity. Qed.

(** ** C6: the five-line scenario *)

Lemma isEmpty_caretAt (l c : N) : isEmpty (caretAt l c) = true.
Proof.
  unfold isEmpty, start, end_, caretAt, isBefore, isEqual; cbn.
  rewrite ?Z.ltb_irrefl, ?Z.eqb_refl; cbn; rewrite ?Z.eqb_refl; reflexivity.
Qed.

(** C6. On any document of five lines, from a caret anywhere on line 2:
    [outwardsDown] selects lines [2,3); again, lines [2,4) with the anchor
    at the start of line 2; [inwardsUp] then leaves lines [3,4); again, the
    caret at column 0 of line 3.  Both files run the scenario alike. *)
Theorem scenario_five_lines (l0 l1 l2 l3 l4 : string) (c : N) :
  let doc := mkDocument [l0; l1; l2; l3; l4] in
  (Part001.outwardsDownSel doc (caretAt 2 c) = Ok (mkSelection (pos 2 0) (pos 3 0))
   /\ Part001.outwardsDownSel doc (mkSelection (pos 2 0) (pos 3 0))
      = Ok (mkSelection (pos 2 0) (pos 4 0))
   /\ Part001.inwardsUpSel doc (mkSelection (pos 2 0) (pos 4 0))
      = Ok (mkSelection (pos 4 0) (pos 3 0))
   /\ Part001.inwardsUpSel doc (mkSelection (pos 4 0) (pos 3 0))
      = Ok (caretAt 3 0))
  /\ (Extension.outwardsDownSel doc (caretAt 2 c) = Ok (mkSelection (pos 2 0) (pos 3 0))
      /\ Extension.outwardsDownSel doc (mkSelection (pos 2 0) (pos 3 0))
         = Ok (mkSelection (pos 2 0) (pos 4 0))
      /\ Extension.inwardsUpSel doc (mkSelection (pos 2 0) (pos 4 0))
         = Ok (mkSelection (pos 4 0) (pos 3 0))
      /\ Extension.inwardsUpSel doc (mkSelection (pos 4 0) (pos 3 0))
         = Ok (caretAt 3 0)).
Proof.
  cbv zeta. repeat split; try reflexivity.
  - unfold Part001.outwardsDownSel. rewrite isEmpty_caretAt. reflexivity.
  - unfold Extension.outwardsDownSel. rewrite isEmpty_caretAt. reflexivity.
Qed.

(** The same scenario through the editor commands, with a second cursor:
    each selection is transformed on its own, in order. *)
Example scenario_editor :
  (e1 <- Part001.outwardsDown (mkEditor doc5 [caretAt 2 3; caretAt 0 0]) ;;
   e2 <- Part001.outwardsDown e1 ;;
   e3 <- Part001.inwardsUp e2 ;;
   Part001.inwardsUp e3)
  = Ok (mkEditor doc5 [caretAt 3 0; caretAt 1 0]).
Proof. reflexivity. Qed.

(** ** C7: shrinking a single selected line leaves a caret *)

Lemma coversLine_full (doc : TextDocument) (sel : Selection) (L : N) :
  coversLine doc sel L ->
  isEmpty sel = false
  /\ Part001.hasPartialLineSelection sel doc = Ok false
  /\ lineZ (start sel) = Z.of_N L
  /\ ((characterZ (end_ sel) = 0 /\ lineZ (end_ sel) = Z.of_N L + 1)
      \/ (0 < characterZ (end_ sel) /\ lineZ (end_ sel) = Z.of_N L)).
Proof.
  intros (HL & Hs & He).
  assert (Hne : isEmpty sel = false).
  { unfold isEmpty, isEqual. rewrite Hs.
    destruct He as [-> | (tl & Hat & Hlen & ->)].
    - posfields. zbool; try lia; reflexivity.
    - apply lineAt_lineNumber in Hat.
      posfields. zbool; try lia; reflexivity. }
  split; [exact Hne|].
  rewrite (hasPartial_nonempty doc sel Hne), Hs.
  destruct He as [-> | (tl & Hat & Hlen & ->)].
  - posfields. zbool; try lia.
    repeat split; try reflexivity; lia.
  - pose proof (lineAt_lineNumber _ _ _ Hat) as [_ Hn].
    posfields. zbool; try lia. rewrite Hat. cbn [bind].
    posfields. zbool; try lia. repeat split; try reflexivity; lia.
Qed.

(** C7. When the selection covers exactly one full line [L] of the
    document, [inwardsDown] returns the empty selection whose anchor and
    active position are both column 0 of line [L] (in both files). *)
Theorem inwardsDown_single_line_collapses
  (doc : TextDocument) (sel : Selection) (L : N) :
  coversLine doc sel L ->
  Part001.inwardsDownSel doc sel = Ok (mkSelection (pos L 0) (pos L 0))
  /\ Extension.inwardsDownSel doc sel = Ok (mkSelection (pos L 0) (pos L 0))
  /\ isEmpty (mkSelection (pos L 0) (pos L 0)) = true.
Proof.
  intros Hc. pose proof Hc as (HL & Hs & _).
  destruct (coversLine_full doc sel L Hc) as (Hne & Hp & Hl & Hz).
  pose proof (nonempty_lt sel Hne) as Hlt.
  pose proof (characterZ_nonneg (end_ sel)) as Hc0.
  assert (Hcs : characterZ (start sel) = 0) by (now rewrite Hs).
  split; [|split].
  - unfold Part001.inwardsDownSel.
    rewrite Hp, (fullLineRange_full doc sel Hne Hp). cbn.
    zbool; try lia. rewrite posLineStart_inside by lia. cbn.
    rewrite Hl, N2Z.id. reflexivity.
  - assert (Hr : Extension.fullLineRange sel doc = Ok (Z.of_N L, Z.of_N L + 1)).
    { unfold Extension.fullLineRange.
      rewrite Hne, (nonempty_pMin sel Hne), (nonempty_pMax sel Hne).
      zbool; try lia; do 2 f_equal; lia. }
    unfold Extension.inwardsDownSel. rewrite Hr. cbn [bind].
    replace (Z.of_N L + 1 - Z.of_N L <=? 1) with true
      by (symmetry; apply Z.leb_le; lia).
    rewrite posLineStart_inside by lia. cbn [bind].
    rewrite N2Z.id. reflexivity.
  - apply (isEmpty_caretAt L 0).
Qed.

(** Line 1 of [doc5], selected up to the start of line 2. *)
Lemma inwardsDown_single_line_collapses_witness :
  coversLine doc5 (mkSelection (pos 1 0) (pos 2 0)) 1
  /\ Part001.inwardsDownSel doc5 (mkSelection (pos 1 0) (pos 2 0))
     = Ok (mkSelection (pos 1 0) (pos 1 0)).
Proof.
  assert (H : coversLine doc5 (mkSelection (pos 1 0) (pos 2 0)) 1).
  { split; [reflexivity|]. split; [reflexivity|]. left; reflexivity. }
  split; [exact H|].
  exact (proj1 (inwardsDown_single_line_collapses doc5 _ 1 H)).
Defined.

(** ** C10: [outwardsUp] at the top of the document *)

(** C10. For a non-empty selection that is not partial and whose resolved
    range is [(0, botEx)], [outwardsUp] returns the selection built from
    that same range with the bottom as the anchor: the top stays on line 0
    and the bottom bound is the one resolved.  When the selection spans
    several lines inside the document this is the input range itself,
    anchored at its end.  [src/extension.ts], which has no classification,
    does the same from its own resolved range. *)
Theorem outwardsUp_at_top (doc : TextDocument) (sel : Selection) (botEx : Z) :
  isEmpty sel = false ->
  Part001.hasPartialLineSelection sel doc = Ok false ->
  Part001.fullLineRange sel doc = Ok (0, botEx) ->
  Part001.outwardsUpSel doc sel = buildSelection doc 0 botEx true
  /\ botEx = lineZ (end_ sel)
  /\ (lineZ (start sel) < lineZ (end_ sel) -> insideDocument doc sel ->
      Part001.outwardsUpSel doc sel = Ok (mkSelection (end_ sel) (start sel)))
  /\ (forall b, Extension.fullLineRange sel doc = Ok (0, b) ->
      Extension.outwardsUpSel doc sel = buildSelection doc 0 b true).
Proof.
  intros He Hp Hr.
  assert (Hup : Part001.outwardsUpSel doc sel = buildSelection doc 0 botEx true).
  { unfold Part001.outwardsUpSel. rewrite He, Hp, Hr. reflexivity. }
  rewrite (fullLineRange_full doc sel He Hp) in Hr. injection Hr as Htop Hbot.
  split; [exact Hup|]. split; [now symmetry|]. split.
  - unfold insideDocument. intros Hml Hin. rewrite Hup.
    rewrite (hasPartial_nonempty doc sel He) in Hp.
    pose proof (lineZ_nonneg (end_ sel)).
    assert (Hcs : characterZ (start sel) = 0 /\ characterZ (end_ sel) = 0).
    { zbool; try discriminate; try lia. }
    destruct Hcs as [Hcs Hce].
    unfold buildSelection.
    rewrite posLineStart_inside, posEndForExclusiveLine_inside by lia. cbn.
    f_equal. f_equal; apply position_eq; unfold lineZ, characterZ in *; cbn; lia.
  - intros b Hb. unfold Extension.outwardsUpSel. rewrite He, Hb. reflexivity.
Qed.

(** Lines 0 and 1 of [doc5], selected top down. *)
Lemma outwardsUp_at_top_witness :
  Part001.outwardsUpSel doc5 (mkSelection (pos 0 0) (pos 2 0))
  = Ok (mkSelection (pos 2 0) (pos 0 0)).
Proof.
  refine (proj1 (proj2 (proj2
    (outwardsUp_at_top doc5 (mkSelection (pos 0 0) (pos 2 0)) 2
       eq_refl eq_refl eq_refl))) _ _).
  - cbv; reflexivity.
  - cbv; reflexivity.
Defined.

(** ** Inside a document the second file classifies and resolves *)

Lemma part001_classifies (doc : TextDocument) (sel : Selection) :
  insideDocument doc sel ->
  exists partial, Part001.hasPartialLineSelection sel doc = Ok partial.
Proof.
  unfold insideDocument. intros Hin.
  destruct (isEmpty sel) eqn:He.
  - rewrite (hasPartial_empty doc sel He). eauto.
  - rewrite (hasPartial_nonempty doc sel He).
    pose proof (start_le_end sel). pose proof (lineZ_nonneg (start sel)).
    destruct (negb _); [eauto|]. destruct (_ =? _); [|eauto].
    destruct (lineAt_inside doc (lineZ (start sel))) as (s & _ & ->); [lia|].
    cbn [bind]. eauto.
Qed.

Lemma part001_resolves (doc : TextDocument) (sel : Selection) (partial : bool) :
  insideDocument doc sel ->
  Part001.hasPartialLineSelection sel doc = Ok partial ->
  exists top botEx,
    Part001.fullLineRange sel doc = Ok (top, botEx)
    /\ top = lineZ (start sel)
    /\ 0 <= top < lineCount doc
    /\ top <= botEx <= lineCount doc
    /\ (isEmpty sel = true -> botEx = top + 1)
    /\ (partial = true -> top < botEx)
    /\ (isEmpty sel = false -> characterZ (end_ sel) = 0 -> botEx = lineZ (end_ sel))
    /\ (isEmpty sel = false -> partial = false -> botEx = lineZ (end_ sel)).
Proof.
  unfold insideDocument. intros Hin Hp.
  pose proof (start_le_end sel). pose proof (lineZ_nonneg (start sel)).
  destruct (isEmpty sel) eqn:He.
  - rewrite (fullLineRange_empty doc sel He).
    rewrite (hasPartial_empty doc sel He) in Hp. injection Hp as <-.
    destruct (empty_caret sel He) as (Hs & Hen & _). rewrite Hs, Hen in *.
    eexists _, _. split; [reflexivity|].
    repeat split; try lia; try discriminate.
  - destruct partial.
    + rewrite (fullLineRange_partial doc sel Hp).
      pose proof (snappedRange_partial_bounds doc sel Hp) as Hb.
      unfold snappedRange in *. cbn [fst snd] in Hb.
      eexists _, _. split; [reflexivity|].
      zbool; repeat split; try lia; try discriminate.
    + rewrite (fullLineRange_full doc sel He Hp).
      eexists _, _. split; [reflexivity|].
      repeat split; try lia; try discriminate.
Qed.

(** Each command of the second file is the builder applied to the stepped
    range: the refinement of sections 4.3 to 4.6 by the code, for
    selections inside the document. *)
Lemma part001_handler_refines (doc : TextDocument) (sel : Selection)
  (c : Command) (partial : bool) (top botEx : Z) :
  insideDocument doc sel ->
  Part001.hasPartialLineSelection sel doc = Ok partial ->
  Part001.fullLineRange sel doc = Ok (top, botEx) ->
  let '(t', b') := rangeAfter c (lineCount doc) (isEmpty sel) partial top botEx in
  part001Handler c doc sel = buildSelection doc t' b' (pinsBottom c).
Proof.
  intros Hin Hp Hr.
  destruct (part001_resolves doc sel partial Hin Hp)
    as (top' & botEx' & Hr' & Htop & Ht & Hb & Hemp & _).
  rewrite Hr in Hr'. injection Hr' as <- <-.
  pose proof (lineCount_nonneg doc) as Hlc.
  unfold rangeAfter, isStepped.
  destruct (isEmpty sel) eqn:He.
  - rewrite (hasPartial_empty doc sel He) in Hp. injection Hp as <-.
    destruct (empty_caret sel He) as (Hs & _ & _). rewrite Hs in Htop.
    specialize (Hemp eq_refl).
    destruct c; cbn [part001Handler isOutward pinsBottom negb andb stepRange].
    + unfold Part001.outwardsUpSel. rewrite He. now rewrite <- Htop, Hemp.
    + unfold Part001.inwardsUpSel.
      rewrite (hasPartial_empty doc sel He), Hr. cbn [bind].
      zbool; try lia. unfold buildSelection, clamp.
      rewrite !posLineStart_inside, posEndForExclusiveLine_inside by lia.
      cbn [bind]. destruct (pinsBottom InwardsUp); reflexivity.
    + unfold Part001.outwardsDownSel. rewrite He. now rewrite <- Htop, Hemp.
    + unfold Part001.inwardsDownSel.
      rewrite (hasPartial_empty doc sel He), Hr. cbn [bind].
      zbool; try lia. unfold buildSelection.
      rewrite !posLineStart_inside, posEndForExclusiveLine_inside by lia.
      reflexivity.
  - destruct partial; cbn [negb andb].
    + destruct c; cbn [part001Handler pinsBottom];
        [ unfold Part001.outwardsUpSel | unfold Part001.inwardsUpSel
        | unfold Part001.outwardsDownSel | unfold Part001.inwardsDownSel ];
        rewrite ?He, Hp; cbn [bind]; rewrite Hr; reflexivity.
    + rewrite Bool.andb_false_r. cbn [negb].
      destruct c; cbn [part001Handler pinsBottom stepRange];
        [ unfold Part001.outwardsUpSel | unfold Part001.inwardsUpSel
        | unfold Part001.outwardsDownSel | unfold Part001.inwardsDownSel ];
        rewrite ?He, Hp; cbn [bind]; rewrite Hr; cbn [bind].
      * reflexivity.
      * destruct (botEx - top <=? 1) eqn:Hsz; [|reflexivity].
        apply Z.leb_le in Hsz. unfold buildSelection, clamp.
        rewrite !posLineStart_inside, posEndForExclusiveLine_inside by lia.
        reflexivity.
      * reflexivity.
      * destruct (botEx - top <=? 1) eqn:Hsz; [|reflexivity].
        unfold buildSelection.
        rewrite !posLineStart_inside, posEndForExclusiveLine_inside by lia.
        reflexivity.
Qed.

(** [src/extension.ts] resolves every selection inside the document and
    steps every one but the caret of an outward command. *)
Lemma extension_handler_refines (doc : TextDocument) (sel : Selection)
  (c : Command) (top botEx : Z) :
  insideDocument doc sel ->
  Extension.fullLineRange sel doc = Ok (top, botEx) ->
  let '(t', b') := rangeAfter c (lineCount doc) (isEmpty sel) false top botEx in
  extensionHandler c doc sel = buildSelection doc t' b' (pinsBottom c).
Proof.
  intros Hin Hr.
  destruct (extension_fullLineRange_guard doc sel Hin)
    as (top' & botEx' & Hr' & Htop & Hb).
  rewrite Hr in Hr'. injection Hr' as <- <-.
  pose proof (lineZ_nonneg (start sel)) as Hs0.
  unfold rangeAfter, isStepped. cbn [negb andb].
  assert (Hcaret : isEmpty sel = true -> top = lineZ (active sel) /\ botEx = top + 1).
  { intros He. destruct (empty_caret sel He) as (Hs & _ & _). rewrite Hs in Htop.
    unfold Extension.fullLineRange in Hr. rewrite He in Hr.
    injection Hr as _ Hbot. lia. }
  destruct c; cbn [extensionHandler isOutward pinsBottom andb negb stepRange];
    [ unfold Extension.outwardsUpSel | unfold Extension.inwardsUpSel
    | unfold Extension.outwardsDownSel | unfold Extension.inwardsDownSel ].
  - destruct (isEmpty sel) eqn:He; cbn [negb].
    + destruct (Hcaret eq_refl) as [<- ->]. reflexivity.
    + rewrite Hr. reflexivity.
  - rewrite Hr. cbn [bind].
    destruct (botEx - top <=? 1) eqn:Hsz; [|reflexivity].
    unfold buildSelection, clamp.
    rewrite !posLineStart_inside, posEndForExclusiveLine_inside by lia.
    reflexivity.
  - destruct (isEmpty sel) eqn:He; cbn [negb].
    + destruct (Hcaret eq_refl) as [<- ->]. reflexivity.
    + rewrite Hr. reflexivity.
  - rewrite Hr. cbn [bind].
    destruct (botEx - top <=? 1) eqn:Hsz; [|reflexivity].
    unfold buildSelection.
    rewrite !posLineStart_inside, posEndForExclusiveLine_inside by lia.
    reflexivity.
Qed.

(** ** Arithmetic of the step *)

Lemma rangeAfter_bounds (c : Command) (lc : Z) (empty partial : bool)
  (top botEx t' b' : Z) :
  0 <= top < lc -> top <= botEx <= lc ->
  rangeAfter c lc empty partial top botEx = (t', b') ->
  0 <= t' < lc /\ t' <= b' <= lc
  /\ (isOutward c = true -> botEx - top <= b' - t')
  /\ (isOutward c = false -> b' - t' <= botEx - top)
  /\ (pinsBottom c = false -> t' = top)
  /\ (pinsBottom c = true -> b' = botEx \/ t' = b')
  /\ (isOutward c = true ->
      (t' = top /\ b' = botEx) \/ b' - t' = botEx - top + 1).
Proof.
  intros Ht Hb. unfold rangeAfter, stepRange, clamp.
  destruct (isStepped c empty partial).
  - destruct c; zbool; intros [= <- <-]; cbn [isOutward pinsBottom];
      repeat split; try lia; try discriminate.
  - intros [= <- <-]. repeat split; try lia.
Qed.

(** ** Shape of a built selection *)

Lemma ordered_ends (p e : Position) (pin : bool) :
  characterZ p = 0 -> lineZ p <= lineZ e ->
  let out := if pin then mkSelection e p else mkSelection p e in
  start out = p /\ end_ out = e.
Proof.
  intros Hc Hl. pose proof (characterZ_nonneg e).
  destruct pin; cbn zeta; unfold start, end_, isBefore; cbn [anchor active];
    zbool; split; try reflexivity; try lia; apply position_eq; lia.
Qed.

Lemma posEndForExclusiveLine_line (doc : TextDocument) (b : Z) (e : Position) :
  posEndForExclusiveLine doc b = Ok e ->
  0 <= b /\ 1 <= lineCount doc
  /\ lineZ e = Z.min b (lineCount doc - 1)
  /\ (b < lineCount doc -> characterZ e = 0)
  /\ (lineCount doc <= b -> endOfDocument doc = Ok e).
Proof.
  unfold posEndForExclusiveLine, endOfDocument, newPosition.
  pose proof (lineCount_nonneg doc).
  zbool; try discriminate.
  - intros [= <-]. posfields. repeat split; try lia.
  - intros Heq. split; [lia|].
    destruct (lineAt doc (lineCount doc - 1)) as [tl|] eqn:Hat; [|discriminate].
    cbn [bind] in *. injection Heq as <-.
    apply lineAt_lineNumber in Hat. posfields. repeat split; try lia.
Qed.

Lemma buildSelection_lines (doc : TextDocument) (t b : Z) (pin : bool) :
  0 <= t < lineCount doc -> t <= b ->
  exists out,
    buildSelection doc t b pin = Ok out
    /\ selectsLines doc out t b
    /\ insideDocument doc out
    /\ (t = b -> isEmpty out = true).
Proof.
  intros Ht Hb.
  destruct (posEndForExclusiveLine_total doc b) as [e He]; [lia|lia|].
  destruct (posEndForExclusiveLine_line doc b e He) as (_ & _ & Hl & Hc & _).
  unfold buildSelection, selectsLines, insideDocument.
  rewrite posLineStart_inside, He by lia. cbn [bind].
  eexists. split; [reflexivity|].
  destruct (ordered_ends (mkPosition (Z.to_N t) 0) e pin) as [Hs Hen].
  { reflexivity. } { posfields. lia. }
  cbn zeta in Hs, Hen. rewrite Hen. repeat split; try assumption; try lia.
  intros ->. unfold isEmpty. rewrite Hs, Hen. unfold isEqual.
  specialize (Hc ltac:(lia)). posfields. zbool; try lia; reflexivity.
Qed.

(** The lines touched by a built selection: the range it was built from,
    but never less than one line, and without the last line when the
    range reaches the end of a document whose last line is empty. *)
Lemma covered_built (doc : TextDocument) (out : Selection) (t b : Z) :
  0 <= t < lineCount doc -> t <= b <= lineCount doc ->
  selectsLines doc out t b ->
  exists bg,
    coveredLines out doc = Ok (t, bg)
    /\ t < bg <= lineCount doc
    /\ bg <= Z.max (t + 1) b
    /\ Z.max (t + 1) (b - 1) <= bg
    /\ (b < lineCount doc -> bg = Z.max (t + 1) b)
    /\ (forall e, endOfDocument doc = Ok e -> 0 < characterZ e ->
        bg = Z.max (t + 1) b).
Proof.
  intros Ht Hb [Hs He].
  destruct (posEndForExclusiveLine_line doc b _ He) as (_ & _ & Hl & Hc & Heof).
  assert (Hsl : lineZ (start out) = t) by (rewrite Hs; posfields; lia).
  assert (Hsc : characterZ (start out) = 0) by (rewrite Hs; reflexivity).
  pose proof (characterZ_nonneg (end_ out)) as Hec.
  unfold coveredLines, Extension.fullLineRange.
  destruct (isEmpty out) eqn:Hemp.
  - destruct (empty_caret out Hemp) as (Hsa & Hea & _).
    rewrite <- Hsa, Hsl. rewrite Hea, <- Hsa in Hl, Hc, Heof.
    exists (Z.min (t + 1) (lineCount doc)). split; [reflexivity|].
    repeat split; lia.
  - rewrite (nonempty_pMin out Hemp), (nonempty_pMax out Hemp), Hsl.
    pose proof (nonempty_lt out Hemp) as Hlt.
    assert (Heofc : forall e, endOfDocument doc = Ok e -> 0 < characterZ e ->
                              lineCount doc <= b -> 0 < characterZ (end_ out)).
    { intros e Hed Hpos Hbl. rewrite (Heof Hbl) in Hed. now injection Hed as <-. }
    destruct (characterZ (end_ out) =? 0) eqn:Hz.
    + apply Z.eqb_eq in Hz.
      destruct (lineZ (end_ out) <=? t) eqn:Hle;
        [apply Z.leb_le in Hle; lia|].
      apply Z.leb_gt in Hle.
      exists (lineZ (end_ out)). split; [reflexivity|].
      repeat split; try lia;
        intros e Hed Hpos;
        destruct (Z.lt_ge_cases b (lineCount doc)); [lia|];
        specialize (Heofc e Hed Hpos ltac:(lia)); lia.
    + apply Z.eqb_neq in Hz.
      assert (Hbl : b = lineCount doc).
      { destruct (Z.lt_ge_cases b (lineCount doc)) as [H|H]; [|lia].
        specialize (Hc H). lia. }
      destruct (Z.min (lineZ (end_ out) + 1) (lineCount doc) <=? t) eqn:Hle;
        [apply Z.leb_le in Hle; lia|].
      exists (Z.min (lineZ (end_ out) + 1) (lineCount doc)).
      split; [reflexivity|]. repeat split; try lia; intros; lia.
Qed.

(** ** Line-aligned selections *)

Lemma isEqual_refl (p : Position) : isEqual p p = true.
Proof. unfold isEqual. now rewrite !Z.eqb_refl. Qed.

Lemma isLineStart_true (doc : TextDocument) (p : Position) :
  characterZ p = 0 -> lineZ p < lineCount doc -> isLineStart doc p = true.
Proof. intros. unfold isLineStart. zbool; try lia; reflexivity. Qed.

Lemma lineAligned_intro (doc : TextDocument) (out : Selection) :
  isLineStart doc (start out) = true ->
  isLineStart doc (end_ out) = true \/ endOfDocument doc = Ok (end_ out) ->
  lineAligned doc out = true.
Proof.
  intros Hs He. unfold lineAligned.
  destruct (isEmpty out) eqn:Hemp.
  - destruct (empty_caret out Hemp) as (<- & _). exact Hs.
  - rewrite Hs. cbn [andb]. destruct He as [-> | He]; [reflexivity|].
    unfold isEndOfDocument. rewrite He, isEqual_refl. apply Bool.orb_true_r.
Qed.

(** Whatever the builder returns is line-aligned and inside the document,
    for any arguments: the top is clamped and the end is a line start or
    the end of the document. *)
Lemma buildSelection_aligned (doc : TextDocument) (t b : Z) (pin : bool)
  (out : Selection) :
  buildSelection doc t b pin = Ok out ->
  lineAligned doc out = true /\ insideDocument doc out.
Proof.
  unfold buildSelection. rewrite posLineStart_clamped. cbn [bind].
  destruct (posEndForExclusiveLine doc b) as [e|] eqn:He; [|discriminate].
  cbn [bind]. intros [= <-].
  destruct (posEndForExclusiveLine_line doc b e He) as (Hb & Hlc & Hl & Hc & Heof).
  set (p := mkPosition (Z.to_N (Z.max 0 (Z.min t (lineCount doc - 1)))) 0).
  assert (Hpl : lineZ p = Z.max 0 (Z.min t (lineCount doc - 1)))
    by (unfold p; posfields; lia).
  assert (Hpc : characterZ p = 0) by reflexivity.
  assert (Hps : isLineStart doc p = true) by (apply isLineStart_true; lia).
  unfold insideDocument.
  destruct (Z.le_gt_cases (lineZ p) (lineZ e)) as [Hle | Hgt].
  - destruct (ordered_ends p e pin Hpc Hle) as [Hs Hen]. cbn zeta in Hs, Hen.
    split; [|rewrite Hen; lia].
    apply lineAligned_intro; rewrite ?Hs, ?Hen; [exact Hps|].
    destruct (Z.lt_ge_cases b (lineCount doc)).
    + left. apply isLineStart_true; [auto | lia].
    + right. apply Heof. lia.
  - assert (Hbl : b < lineCount doc) by lia.
    destruct (ordered_ends e p (negb pin)) as [Hs Hen]; [auto | lia |].
    cbn zeta in Hs, Hen.
    replace (if pin then mkSelection e p else mkSelection p e)
      with (if negb pin then mkSelection p e else mkSelection e p)
      by (destruct pin; reflexivity).
    split; [|rewrite Hen; lia].
    apply lineAligned_intro; rewrite ?Hs, ?Hen; [|left; exact Hps].
    apply isLineStart_true; [auto | lia].
Qed.

Lemma caret_aligned (doc : TextDocument) (l : Z) (p : Position) :
  1 <= lineCount doc -> posLineStart doc l = Ok p ->
  lineAligned doc (mkSelection p p) = true /\ insideDocument doc (mkSelection p p).
Proof.
  intros Hlc. rewrite posLineStart_clamped. intros [= <-].
  set (p := mkPosition _ 0).
  assert (Hpl : lineZ p = Z.max 0 (Z.min l (lineCount doc - 1)))
    by (unfold p; posfields; lia).
  assert (Hsel : start (mkSelection p p) = p /\ end_ (mkSelection p p) = p).
  { unfold start, end_. cbn [anchor active]. destruct (isBefore p p); auto. }
  destruct Hsel as [Hs He]. unfold insideDocument. rewrite He.
  split; [|lia].
  apply lineAligned_intro; rewrite ?Hs, ?He; [|left];
    apply isLineStart_true; try reflexivity; lia.
Qed.

(** ** Every result of a command is a built selection or a caret *)

Ltac run_binds :=
  repeat match goal with
    | |- context [bind ?m _] =>
        let E := fresh "E" in destruct m as [?|?] eqn:E; cbn [bind]
    | |- context [let '(_, _) := ?x in _] => destruct x
    | |- context [if ?b then _ else _] => destruct b
    end.

Lemma built_result (doc : TextDocument) (out : Selection) :
  builtBy doc out -> 1 <= lineCount doc ->
  lineAligned doc out = true /\ insideDocument doc out.
Proof.
  intros [(t & b & pin & H) | (l & p & H & ->)] Hlc.
  - exact (buildSelection_aligned doc t b pin out H).
  - exact (caret_aligned doc l p Hlc H).
Qed.

Lemma part001_handler_built (doc : TextDocument) (sel out : Selection)
  (c : Command) :
  part001Handler c doc sel = Ok out -> builtBy doc out.
Proof.
  destruct c; cbn [part001Handler].
  all: [> unfold Part001.outwardsUpSel | unfold Part001.inwardsUpSel
        | unfold Part001.outwardsDownSel | unfold Part001.inwardsDownSel ].
  all: run_binds; intros H; try discriminate.
  all: try (left; eexists _, _, _; exact H).
  all: injection H as <-; right; eexists _, _; split; [eassumption|reflexivity].
Qed.

Lemma extension_handler_built (doc : TextDocument) (sel out : Selection)
  (c : Command) :
  extensionHandler c doc sel = Ok out -> builtBy doc out.
Proof.
  destruct c; cbn [extensionHandler].
  all: [> unfold Extension.outwardsUpSel | unfold Extension.inwardsUpSel
        | unfold Extension.outwardsDownSel | unfold Extension.inwardsDownSel ].
  all: run_binds; intros H; try discriminate.
  all: try (left; eexists _, _, _; exact H).
  all: injection H as <-; right; eexists _, _; split; [eassumption|reflexivity].
Qed.

(** [src/extension.ts] resolves every selection, to non-negative bounds. *)
Lemma extension_fullLineRange_total (doc : TextDocument) (sel : Selection) :
  exists top botEx,
    Extension.fullLineRange sel doc = Ok (top, botEx) /\ 0 <= top /\ 0 <= botEx.
Proof.
  pose proof (lineCount_nonneg doc). pose proof (lineZ_nonneg (active sel)).
  pose proof (lineZ_nonneg (pMinOf sel)). pose proof (lineZ_nonneg (pMaxOf sel)).
  unfold Extension.fullLineRange.
  destruct (isEmpty sel); [|destruct (_ =? _); destruct (_ <=? _)];
    eexists _, _; (split; [reflexivity|]); lia.
Qed.

(** With at least one line in the document, the commands of
    [src/extension.ts] return for every selection, also one that lies
    beyond the last line. *)
Lemma extension_handler_total (doc : TextDocument) (sel : Selection)
  (c : Command) :
  1 <= lineCount doc -> exists out, extensionHandler c doc sel = Ok out.
Proof.
  intros Hlc.
  destruct (extension_fullLineRange_total doc sel) as (top & botEx & Hr & Ht & Hb).
  pose proof (lineZ_nonneg (active sel)).
  destruct c; cbn [extensionHandler];
    [ unfold Extension.outwardsUpSel | unfold Extension.inwardsUpSel
    | unfold Extension.outwardsDownSel | unfold Extension.inwardsDownSel ];
    rewrite Hr; cbn [bind]; rewrite ?posLineStart_clamped; cbn [bind];
    repeat match goal with
      | |- context [if ?b then _ else _] =>
          let E := fresh "E" in destruct b eqn:E
      end;
    zbool; eauto; apply buildSelection_total; lia.
Qed.

(** ** Consequences of the refinement, for either file *)

Section Refinement.

Variable classify : Selection -> TextDocument -> result bool.
Variable resolve : Selection -> TextDocument -> result (Z * Z).
Variable handler : Command -> TextDocument -> Selection -> result Selection.

Hypothesis classify_inside : forall doc sel,
  insideDocument doc sel -> exists partial, classify sel doc = Ok partial.

Hypothesis resolve_inside : forall doc sel partial,
  insideDocument doc sel -> classify sel doc = Ok partial ->
  exists top botEx,
    resolve sel doc = Ok (top, botEx)
    /\ top = lineZ (start sel)
    /\ 0 <= top < lineCount doc
    /\ top <= botEx <= lineCount doc
    /\ (isEmpty sel = false -> characterZ (end_ sel) = 0 ->
        botEx = lineZ (end_ sel)).

Hypothesis handler_refines : forall doc sel c partial top botEx,
  insideDocument doc sel -> classify sel doc = Ok partial ->
  resolve sel doc = Ok (top, botEx) ->
  let '(t', b') := rangeAfter c (lineCount doc) (isEmpty sel) partial top botEx in
  handler c doc sel = buildSelection doc t' b' (pinsBottom c).

(** The resolver agrees with the lines touched, up to the guard ... *)
Hypothesis resolve_covered : forall doc sel top botEx,
  insideDocument doc sel -> resolve sel doc = Ok (top, botEx) ->
  coveredLines sel doc = Ok (top, Z.max (top + 1) botEx).

(** ... and resolves to the end of the document only for a single line or
    when the last line has text. *)
Hypothesis resolve_to_end : forall doc sel top botEx,
  validEnd doc sel -> resolve sel doc = Ok (top, botEx) ->
  botEx = lineCount doc ->
  botEx - top <= 1 \/ exists e, endOfDocument doc = Ok e /\ 0 < characterZ e.

Lemma refined_output (doc : TextDocument) (sel : Selection) (c : Command) :
  insideDocument doc sel ->
  exists top botEx t' b' out,
    resolve sel doc = Ok (top, botEx)
    /\ top = lineZ (start sel)
    /\ (isEmpty sel = false -> characterZ (end_ sel) = 0 ->
        botEx = lineZ (end_ sel))
    /\ handler c doc sel = Ok out
    /\ buildSelection doc t' b' (pinsBottom c) = Ok out
    /\ selectsLines doc out t' b'
    /\ insideDocument doc out
    /\ (t' = b' -> isEmpty out = true)
    /\ (0 <= t' < lineCount doc /\ t' <= b' <= lineCount doc)
    /\ (isOutward c = true -> botEx - top <= b' - t')
    /\ (isOutward c = false -> b' - t' <= botEx - top)
    /\ (pinsBottom c = false -> t' = top)
    /\ (pinsBottom c = true -> b' = botEx \/ t' = b')
    /\ (isOutward c = true ->
        (t' = top /\ b' = botEx) \/ b' - t' = botEx - top + 1).
Proof.
  intros Hin.
  destruct (classify_inside doc sel Hin) as [partial Hp].
  destruct (resolve_inside doc sel partial Hin Hp)
    as (top & botEx & Hr & Htop & Ht & Hb & Hcol).
  pose proof (handler_refines doc sel c partial top botEx Hin Hp Hr) as Hh.
  destruct (rangeAfter c (lineCount doc) (isEmpty sel) partial top botEx)
    as [t' b'] eqn:Hra.
  destruct (rangeAfter_bounds _ _ _ _ _ _ _ _ Ht Hb Hra)
    as (Ht' & Hb' & Hout & Hinw & Hpt & Hpb & Hstep).
  destruct (buildSelection_lines doc t' b' (pinsBottom c))
    as (out & Hbuild & Hsl & Hio & Hemp); [lia|lia|].
  exists top, botEx, t', b', out. rewrite Hh.
  repeat split; try assumption; try apply Hsl; try lia.
Qed.

Lemma refined_monotoneBounded (doc : TextDocument) (sel : Selection)
  (c : Command) :
  insideDocument doc sel -> monotoneBounded resolve handler doc sel c.
Proof.
  intros Hin.
  destruct (refined_output doc sel c Hin)
    as (top & botEx & t' & b' & out & Hr & _ & _ & Hh & Hbuild & Hsl & _ & _
        & (Ht' & Hb') & Hout & Hinw & _).
  exists top, botEx, t', b', out.
  repeat split; try assumption; try apply Hsl; try lia.
Qed.

Lemma refined_pinKept (doc : TextDocument) (sel : Selection) (c : Command) :
  insideDocument doc sel -> pinKept resolve handler doc sel c.
Proof.
  intros Hin.
  destruct (refined_output doc sel c Hin)
    as (top & botEx & t' & b' & out & Hr & Htop & Hcol & Hh & _ & [Hs He] & _
        & Hemp & (Ht' & Hb') & _ & _ & Hpt & Hpb & _).
  exists top, botEx, out. split; [exact Hr|]. split; [exact Hh|]. split.
  - intros Hpin. rewrite Hs, <- Htop, <- (Hpt Hpin). posfields. lia.
  - intros Hpin Hne.
    assert (Hbb : b' = botEx).
    { destruct (Hpb Hpin) as [H | H]; [exact H|].
      rewrite (Hemp H) in Hne. discriminate. }
    subst b'. split; [exact He|].
    intros Hsne Hc0. specialize (Hcol Hsne Hc0).
    unfold insideDocument in Hin.
    rewrite posEndForExclusiveLine_inside in He by lia.
    injection He as <-. apply position_eq; posfields; lia.
Qed.

Lemma validEnd_inside (doc : TextDocument) (sel : Selection) :
  validEnd doc sel -> insideDocument doc sel.
Proof.
  intros (tl & Hat & _). apply lineAt_lineNumber in Hat.
  unfold insideDocument. lia.
Qed.

Lemma refined_coveredMonotone (doc : TextDocument) (sel : Selection)
  (c : Command) :
  validEnd doc sel -> coveredMonotone handler doc sel c.
Proof.
  intros Hv. pose proof (validEnd_inside doc sel Hv) as Hin.
  destruct (refined_output doc sel c Hin)
    as (top & botEx & t' & b' & out & Hr & Htop & _ & Hh & _ & Hsl & _ & _
        & (Ht' & Hb') & Hout & Hinw & _ & _ & Hstep).
  pose proof (resolve_covered doc sel top botEx Hin Hr) as Hcov.
  destruct (covered_built doc out t' b' Ht' Hb' Hsl)
    as (bg & Hg & Hbg & Hup & Hlow & Hmid & Heof).
  pose proof (lineZ_nonneg (start sel)) as Hs0.
  exists top, (Z.max (top + 1) botEx), t', bg, out.
  split; [exact Hh|]. split; [exact Hcov|]. split; [exact Hg|].
  split; [lia|]. split; [lia|]. split.
  - intros Hc. specialize (Hout Hc).
    destruct (Z.lt_ge_cases b' (lineCount doc)) as [Hlt | Hge].
    + rewrite (Hmid Hlt). lia.
    + destruct (Hstep Hc) as [[-> ->] | Hplus]; [|lia].
      destruct (resolve_to_end doc sel top botEx Hv Hr ltac:(lia))
        as [Hone | (e & He & Hpos)]; [lia|].
      rewrite (Heof e He Hpos). lia.
  - intros Hc. specialize (Hinw Hc). lia.
Qed.

End Refinement.

(** ** The two files meet the assumptions of the refinement *)

Lemma part001_resolve_inside (doc : TextDocument) (sel : Selection)
  (partial : bool) :
  insideDocument doc sel ->
  Part001.hasPartialLineSelection sel doc = Ok partial ->
  exists top botEx,
    Part001.fullLineRange sel doc = Ok (top, botEx)
    /\ top = lineZ (start sel)
    /\ 0 <= top < lineCount doc
    /\ top <= botEx <= lineCount doc
    /\ (isEmpty sel = false -> characterZ (end_ sel) = 0 ->
        botEx = lineZ (end_ sel)).
Proof.
  intros Hin Hp.
  destruct (part001_resolves doc sel partial Hin Hp)
    as (top & botEx & Hr & Htop & Ht & Hb & _ & _ & Hcol & _).
  exists top, botEx. repeat split; try assumption; lia.
Qed.

Lemma extension_resolve_inside (doc : TextDocument) (sel : Selection)
  (partial : bool) :
  insideDocument doc sel ->
  noClassification sel doc = Ok partial ->
  exists top botEx,
    Extension.fullLineRange sel doc = Ok (top, botEx)
    /\ top = lineZ (start sel)
    /\ 0 <= top < lineCount doc
    /\ top <= botEx <= lineCount doc
    /\ (isEmpty sel = false -> characterZ (end_ sel) = 0 ->
        botEx = lineZ (end_ sel)).
Proof.
  intros Hin _.
  destruct (extension_fullLineRange_guard doc sel Hin)
    as (top & botEx & Hr & Htop & Hb).
  pose proof (lineZ_nonneg (start sel)).
  exists top, botEx. repeat split; try assumption; try lia.
  intros He Hc. pose proof (nonempty_lt sel He) as Hlt.
  pose proof (characterZ_nonneg (start sel)).
  unfold Extension.fullLineRange in Hr.
  rewrite He, (nonempty_pMin sel He), (nonempty_pMax sel He) in Hr.
  revert Hr. zbool; intros [= _ <-]; lia.
Qed.

Lemma extension_refines (doc : TextDocument) (sel : Selection) (c : Command)
  (partial : bool) (top botEx : Z) :
  insideDocument doc sel ->
  noClassification sel doc = Ok partial ->
  Extension.fullLineRange sel doc = Ok (top, botEx) ->
  let '(t', b') := rangeAfter c (lineCount doc) (isEmpty sel) partial top botEx in
  extensionHandler c doc sel = buildSelection doc t' b' (pinsBottom c).
Proof.
  intros Hin [= <-] Hr. exact (extension_handler_refines doc sel c top botEx Hin Hr).
Qed.

Lemma inside_one_line (doc : TextDocument) (sel : Selection) :
  insideDocument doc sel -> 1 <= lineCount doc.
Proof. unfold insideDocument. pose proof (lineZ_nonneg (end_ sel)). lia. Qed.

(** ** The pinned side, on the resolved range *)

(** Snapping moves the bottom endpoint itself to the start of the next
    line, the end of the row it was on.  From characters 1 to 3 of line 1,
    [outwardsUp] gives the non-empty selection of line 1, whose bottom
    endpoint is at column 0 of line 2; the last line covered is still
    line 1. *)
Lemma bottom_endpoint_moves_on_snap :
  exists out,
    Part001.outwardsUpSel doc5 (mkSelection (pos 1 1) (pos 1 3)) = Ok out
    /\ isEmpty out = false
    /\ lineZ (end_ (mkSelection (pos 1 1) (pos 1 3))) = 1
    /\ lineZ (end_ out) = 2.
Proof. eexists. repeat split; reflexivity. Qed.

Lemma part001_resolved_bottom (doc : TextDocument) (sel : Selection)
  (top botEx : Z) :
  insideDocument doc sel -> endsOnBoundary doc sel ->
  Part001.fullLineRange sel doc = Ok (top, botEx) ->
  botEx = lastLine sel + 1.
Proof.
  intros Hin Hreg Hr. unfold lastLine.
  destruct (isEmpty sel) eqn:He.
  - rewrite (fullLineRange_empty doc sel He) in Hr. injection Hr as _ <-.
    destruct (empty_caret sel He) as (_ & Hen & _).
    unfold insideDocument in Hin. rewrite Hen in Hin. lia.
  - destruct Hreg as [Hreg | [Hp | Hc]]; [congruence | |].
    + rewrite (fullLineRange_partial doc sel Hp) in Hr.
      unfold snappedRange in Hr. injection Hr as _ <-.
      destruct (characterZ (end_ sel) =? 0); lia.
    + destruct (part001_classifies doc sel Hin) as [partial Hp].
      destruct (part001_resolves doc sel partial Hin Hp)
        as (top' & botEx' & Hr' & _ & _ & _ & _ & _ & Hcol & _).
      rewrite Hr in Hr'. injection Hr' as _ <-.
      rewrite (Hcol He Hc), Hc. cbn. lia.
Qed.

Lemma extension_resolved_bottom (doc : TextDocument) (sel : Selection)
  (top botEx : Z) :
  insideDocument doc sel ->
  Extension.fullLineRange sel doc = Ok (top, botEx) ->
  botEx = lastLine sel + 1.
Proof.
  unfold insideDocument. intros Hin Hr. unfold lastLine.
  unfold Extension.fullLineRange in Hr.
  destruct (isEmpty sel) eqn:He.
  - injection Hr as _ <-.
    destruct (empty_caret sel He) as (_ & Hen & _). rewrite Hen in Hin. lia.
  - rewrite (nonempty_pMin sel He), (nonempty_pMax sel He) in Hr.
    pose proof (nonempty_lt sel He). pose proof (characterZ_nonneg (start sel)).
    revert Hr. zbool; intros [= _ <-]; lia.
Qed.

Lemma bottomKept_of_resolved (doc : TextDocument) (sel out : Selection)
  (botEx : Z) :
  insideDocument doc sel ->
  botEx = lastLine sel + 1 ->
  posEndForExclusiveLine doc botEx = Ok (end_ out) ->
  bottomKept doc sel out.
Proof.
  unfold insideDocument. intros Hin -> He. split; [exact He|].
  intros Hne Hc. unfold lastLine in He. rewrite Hne, Hc in He. cbn in He.
  pose proof (nonempty_lt sel Hne). pose proof (lineZ_nonneg (start sel)).
  pose proof (characterZ_nonneg (start sel)).
  rewrite posEndForExclusiveLine_inside in He by lia.
  injection He as <-. apply position_eq; posfields; lia.
Qed.

(** The resolved range against the lines touched, in either file. *)
Lemma part001_resolve_covered (doc : TextDocument) (sel : Selection)
  (top botEx : Z) :
  insideDocument doc sel ->
  Part001.fullLineRange sel doc = Ok (top, botEx) ->
  coveredLines sel doc = Ok (top, Z.max (top + 1) botEx).
Proof.
  intros Hin Hr.
  destruct (part001_classifies doc sel Hin) as [partial Hp].
  destruct (part001_resolves doc sel partial Hin Hp)
    as (top' & botEx' & Hr' & Htop & Ht & Hb & Hemp & Hpart & Hcol & Hfull).
  rewrite Hr in Hr'. injection Hr' as <- <-.
  destruct (extension_fullLineRange_guard doc sel Hin)
    as (t & bg & Hg & Hgt & Hgb).
  pose proof (extension_resolved_bottom doc sel t bg Hin Hg) as Hbg.
  unfold coveredLines. rewrite Hg. do 2 f_equal; [congruence|].
  rewrite Hbg. unfold lastLine.
  destruct (isEmpty sel) eqn:He.
  - specialize (Hemp eq_refl).
    destruct (empty_caret sel He) as (Hs & _ & _). rewrite Hs in Htop. lia.
  - pose proof (nonempty_lt sel He) as Hlt.
    pose proof (characterZ_nonneg (start sel)).
    destruct (characterZ (end_ sel) =? 0) eqn:Hz.
    + apply Z.eqb_eq in Hz. rewrite (Hcol eq_refl Hz). lia.
    + apply Z.eqb_neq in Hz. destruct partial.
      * rewrite (fullLineRange_partial doc sel Hp) in Hr.
        unfold snappedRange in Hr. injection Hr as _ Hbot.
        apply Z.eqb_neq in Hz. rewrite Hz in Hbot. lia.
      * rewrite (Hfull eq_refl eq_refl).
        rewrite (hasPartial_nonempty doc sel He) in Hp.
        revert Hp. zbool; try lia; try discriminate; intros _; lia.
Qed.

Lemma extension_resolve_covered (doc : TextDocument) (sel : Selection)
  (top botEx : Z) :
  insideDocument doc sel ->
  Extension.fullLineRange sel doc = Ok (top, botEx) ->
  coveredLines sel doc = Ok (top, Z.max (top + 1) botEx).
Proof.
  intros Hin Hr.
  destruct (extension_fullLineRange_guard doc sel Hin)
    as (t & bg & Hg & _ & Hgb).
  rewrite Hr in Hg. injection Hg as <- <-.
  unfold coveredLines. rewrite Hr. do 2 f_equal. lia.
Qed.

Lemma end_of_document_has_text (doc : TextDocument) (sel : Selection) :
  validEnd doc sel ->
  lineZ (end_ sel) = lineCount doc - 1 -> 0 < characterZ (end_ sel) ->
  exists e, endOfDocument doc = Ok e /\ 0 < characterZ e.
Proof.
  intros (tl & Hat & Hlen) Hl Hc. unfold endOfDocument.
  rewrite <- Hl, Hat. cbn [bind]. eexists. split; [reflexivity|].
  posfields. lia.
Qed.

Lemma part001_resolve_to_end (doc : TextDocument) (sel : Selection)
  (top botEx : Z) :
  validEnd doc sel -> Part001.fullLineRange sel doc = Ok (top, botEx) ->
  botEx = lineCount doc ->
  botEx - top <= 1 \/ exists e, endOfDocument doc = Ok e /\ 0 < characterZ e.
Proof.
  intros Hv Hr Hend. pose proof (validEnd_inside doc sel Hv) as Hin.
  pose proof Hin as Hin'. unfold insideDocument in Hin'.
  pose proof (characterZ_nonneg (end_ sel)).
  destruct (isEmpty sel) eqn:He.
  - left. rewrite (fullLineRange_empty doc sel He) in Hr.
    injection Hr as <- <-. lia.
  - right.
    assert (Hreg : endsOnBoundary doc sel -> botEx = lastLine sel + 1)
      by (intros Hreg; exact (part001_resolved_bottom doc sel top botEx Hin Hreg Hr)).
    destruct (part001_classifies doc sel Hin) as [[|] Hp].
    + specialize (Hreg (or_intror (or_introl Hp))).
      unfold lastLine in Hreg. rewrite He in Hreg.
      apply (end_of_document_has_text doc sel Hv);
        destruct (characterZ (end_ sel) =? 0) eqn:Hz;
        try apply Z.eqb_eq in Hz; try apply Z.eqb_neq in Hz; lia.
    + rewrite (fullLineRange_full doc sel He Hp) in Hr.
      injection Hr as _ <-. lia.
Qed.

Lemma extension_resolve_to_end (doc : TextDocument) (sel : Selection)
  (top botEx : Z) :
  validEnd doc sel -> Extension.fullLineRange sel doc = Ok (top, botEx) ->
  botEx = lineCount doc ->
  botEx - top <= 1 \/ exists e, endOfDocument doc = Ok e /\ 0 < characterZ e.
Proof.
  intros Hv Hr Hend. pose proof (validEnd_inside doc sel Hv) as Hin.
  pose proof Hin as Hin'. unfold insideDocument in Hin'.
  pose proof (characterZ_nonneg (end_ sel)).
  pose proof (extension_resolved_bottom doc sel top botEx Hin Hr) as Hbot.
  unfold lastLine in Hbot.
  destruct (isEmpty sel) eqn:He.
  - left. unfold Extension.fullLineRange in Hr. rewrite He in Hr.
    injection Hr as <- <-. lia.
  - right. apply (end_of_document_has_text doc sel Hv);
      destruct (characterZ (end_ sel) =? 0) eqn:Hz;
      try apply Z.eqb_eq in Hz; try apply Z.eqb_neq in Hz; lia.
Qed.

(** What holds of the pinned side.  For a selection inside the document,
    in either file:
    the two down commands return a selection whose top endpoint is on the
    line of the input's top endpoint.  The two up commands, when they do
    not collapse, return a selection whose bottom endpoint is the end of
    the last line the input covers (column 0 of the line after it, or the
    end of the document), and that is the input's own bottom endpoint
    when the input is non-empty and ends at column 0; in the second file
    this is stated for a caret, a partial selection and a selection that
    ends at column 0. *)
Theorem pin_side_kept (doc : TextDocument) (sel : Selection) (c : Command) :
  insideDocument doc sel ->
  (exists out,
      part001Handler c doc sel = Ok out
      /\ (pinsBottom c = false -> topKept sel out)
      /\ (pinsBottom c = true -> isEmpty out = false ->
          endsOnBoundary doc sel -> bottomKept doc sel out))
  /\ (exists out,
        extensionHandler c doc sel = Ok out
        /\ (pinsBottom c = false -> topKept sel out)
        /\ (pinsBottom c = true -> isEmpty out = false ->
            bottomKept doc sel out)).
Proof.
  intros Hin. split.
  - destruct (refined_pinKept _ _ _ part001_classifies part001_resolve_inside
                part001_handler_refines doc sel c Hin)
      as (top & botEx & out & Hr & Hh & Htop & Hbot).
    exists out. split; [exact Hh|]. split; [exact Htop|].
    intros Hpin Hne Hreg.
    apply (bottomKept_of_resolved doc sel out botEx Hin).
    + exact (part001_resolved_bottom doc sel top botEx Hin Hreg Hr).
    + exact (proj1 (Hbot Hpin Hne)).
  - destruct (refined_pinKept noClassification _ _
                (fun _ _ _ => ex_intro _ false eq_refl)
                extension_resolve_inside extension_refines doc sel c Hin)
      as (top & botEx & out & Hr & Hh & Htop & Hbot).
    exists out. split; [exact Hh|]. split; [exact Htop|].
    intros Hpin Hne.
    apply (bottomKept_of_resolved doc sel out botEx Hin).
    + exact (extension_resolved_bottom doc sel top botEx Hin Hr).
    + exact (proj1 (Hbot Hpin Hne)).
Qed.

(** Characters 1 to 3 of line 1 of [doc5]: [outwardsUp] ends the result at
    the end of line 1, which is column 0 of line 2. *)
Lemma pin_side_kept_witness :
  insideDocument doc5 (mkSelection (pos 1 1) (pos 1 3))
  /\ exists out,
       part001Handler OutwardsUp doc5 (mkSelection (pos 1 1) (pos 1 3)) = Ok out
       /\ bottomKept doc5 (mkSelection (pos 1 1) (pos 1 3)) out.
Proof.
  assert (H : insideDocument doc5 (mkSelection (pos 1 1) (pos 1 3)))
    by (cbv; reflexivity).
  split; [exact H|].
  destruct (proj1 (pin_side_kept doc5 _ OutwardsUp H)) as (out & Hh & _ & Hb).
  exists out. split; [exact Hh|].
  apply Hb; [reflexivity | | right; left; reflexivity].
  cbv in Hh. injection Hh as <-. reflexivity.
Defined.

(** What this leaves out: in the second file, the last
    line of [doc5] selected in full and expanded upwards is let go, the
    result ending at the end of line 3; [src/extension.ts] keeps it. *)
Example part001_bottom_not_kept :
  Part001.outwardsUpSel doc5 (mkSelection (pos 4 0) (pos 4 7))
  = Ok (mkSelection (pos 4 0) (pos 3 0))
  /\ lastLine (mkSelection (pos 4 0) (pos 4 7)) = 4
  /\ posEndForExclusiveLine doc5 4 = Ok (pos 4 0).
Proof. repeat split; reflexivity. Qed.

(** ** The size of the range, on the resolved range and on the lines touched *)

(** For a selection inside the document, in either file, every command
    returns the selection built from a line range [(t', b')] with
    [0 <= t' <= b' <= lineCount]; with [(top, botEx)] the range resolved
    from the input, [b' - t'] is at least [botEx - top] for the outward
    commands and at most [botEx - top] for the inward ones.  The same holds
    of the lines touched by the input and by the result, measured on the
    two selections themselves, when the input ends at a position of the
    document. *)
Theorem transforms_monotone_bounded
  (doc : TextDocument) (sel : Selection) (c : Command) :
  insideDocument doc sel ->
  (monotoneBounded Part001.fullLineRange part001Handler doc sel c
   /\ monotoneBounded Extension.fullLineRange extensionHandler doc sel c)
  /\ (validEnd doc sel ->
      coveredMonotone part001Handler doc sel c
      /\ coveredMonotone extensionHandler doc sel c).
Proof.
  intros Hin. split; [split|].
  - exact (refined_monotoneBounded _ _ _ part001_classifies
             part001_resolve_inside part001_handler_refines doc sel c Hin).
  - exact (refined_monotoneBounded noClassification _ _
             (fun _ _ _ => ex_intro _ false eq_refl)
             extension_resolve_inside extension_refines doc sel c Hin).
  - intros Hv. split.
    + exact (refined_coveredMonotone _ _ _ part001_classifies
               part001_resolve_inside part001_handler_refines
               part001_resolve_covered part001_resolve_to_end doc sel c Hv).
    + exact (refined_coveredMonotone noClassification _ _
               (fun _ _ _ => ex_intro _ false eq_refl)
               extension_resolve_inside extension_refines
               extension_resolve_covered extension_resolve_to_end doc sel c Hv).
Qed.

(** Lines 1 and 2 of [doc5], expanded downwards. *)
Lemma transforms_monotone_bounded_witness :
  insideDocument doc5 (mkSelection (pos 1 0) (pos 3 0))
  /\ validEnd doc5 (mkSelection (pos 1 0) (pos 3 0))
  /\ monotoneBounded Part001.fullLineRange part001Handler doc5
       (mkSelection (pos 1 0) (pos 3 0)) OutwardsDown
  /\ coveredMonotone part001Handler doc5
       (mkSelection (pos 1 0) (pos 3 0)) OutwardsDown.
Proof.
  assert (H : insideDocument doc5 (mkSelection (pos 1 0) (pos 3 0)))
    by (cbv; reflexivity).
  assert (Hv : validEnd doc5 (mkSelection (pos 1 0) (pos 3 0))).
  { eexists. split; [reflexivity|]. cbv; discriminate. }
  destruct (transforms_monotone_bounded doc5 _ OutwardsDown H) as [[Hm _] Hc].
  split; [exact H|]. split; [exact Hv|]. split; [exact Hm|].
  exact (proj1 (Hc Hv)).
Defined.

(** ** Where the commands return: inside the document *)


Lemma empty_document_inward_caret (doc : TextDocument) (sel : Selection)
  (c : Command) :
  lineCount doc = 0 -> isEmpty sel = true -> isOutward c = false ->
  part001Handler c doc sel = Ok (caretAt 0 0)
  /\ extensionHandler c doc sel = Ok (caretAt 0 0).
Proof.
  intros Hlc He Hc. pose proof (lineZ_nonneg (active sel)) as Hl.
  assert (Hsz : forall L, 0 <= L -> (Z.min (L + 1) 0 - L <=? 1) = true)
    by (intros; apply Z.leb_le; lia).
  assert (Hps : forall l, posLineStart doc l = Ok (pos 0 0)).
  { intros l. rewrite posLineStart_clamped, Hlc.
    replace (Z.max 0 (Z.min l (0 - 1))) with 0 by lia. reflexivity. }
  destruct c; try discriminate Hc; cbn [part001Handler extensionHandler].
  - unfold Part001.inwardsUpSel, Extension.inwardsUpSel.
    rewrite (hasPartial_empty doc sel He), (fullLineRange_empty doc sel He).
    unfold Extension.fullLineRange. rewrite He, Hlc. cbn [bind].
    rewrite (Hsz _ Hl), Hps. split; reflexivity.
  - unfold Part001.inwardsDownSel, Extension.inwardsDownSel.
    rewrite (hasPartial_empty doc sel He), (fullLineRange_empty doc sel He).
    unfold Extension.fullLineRange. rewrite He, Hlc. cbn [bind].
    rewrite (Hsz _ Hl), Hps. split; reflexivity.
Qed.

(** On a document with at least one line the commands of
    [src/extension.ts] return a selection for every input selection, and
    those of the second file for every selection inside the document; the
    selection returned lies inside the document.  On a document without
    lines the inward commands turn a caret into the caret at line 0,
    column 0. *)
Theorem transforms_defined (doc : TextDocument) (sel : Selection) (c : Command) :
  (1 <= lineCount doc ->
   exists out, extensionHandler c doc sel = Ok out /\ insideDocument doc out)
  /\ (insideDocument doc sel ->
      exists out, part001Handler c doc sel = Ok out /\ insideDocument doc out)
  /\ (lineCount doc = 0 -> isEmpty sel = true -> isOutward c = false ->
      part001Handler c doc sel = Ok (caretAt 0 0)
      /\ extensionHandler c doc sel = Ok (caretAt 0 0)).
Proof.
  split; [|split].
  - intros Hlc. destruct (extension_handler_total doc sel c Hlc) as [out Hout].
    exists out. split; [exact Hout|].
    exact (proj2 (built_result doc out (extension_handler_built doc sel out c Hout) Hlc)).
  - intros Hin.
    destruct (refined_output _ _ _ part001_classifies part001_resolve_inside
                part001_handler_refines doc sel c Hin)
      as (_ & _ & _ & _ & out & _ & _ & _ & Hh & _ & _ & Hio & _).
    exists out. split; assumption.
  - apply empty_document_inward_caret.
Qed.

Lemma transforms_defined_witness :
  1 <= lineCount doc5
  /\ insideDocument doc5 (mkSelection (pos 1 2) (pos 3 1))
  /\ (exists out, extensionHandler OutwardsUp doc5 (mkSelection (pos 1 2) (pos 3 1)) = Ok out
                  /\ insideDocument doc5 out)
  /\ (exists out, part001Handler OutwardsUp doc5 (mkSelection (pos 1 2) (pos 3 1)) = Ok out
                  /\ insideDocument doc5 out).
Proof.
  assert (Hlc : 1 <= lineCount doc5) by (cbv; discriminate).
  assert (Hin : insideDocument doc5 (mkSelection (pos 1 2) (pos 3 1)))
    by (cbv; reflexivity).
  destruct (transforms_defined doc5 (mkSelection (pos 1 2) (pos 3 1)) OutwardsUp)
    as (He & Hp & _).
  split; [exact Hlc|]. split; [exact Hin|]. split; [exact (He Hlc)|exact (Hp Hin)].
Defined.

(** ** C9: the selection returned is line-aligned *)

(** C9. On a document with at least one line, whatever a command of the
    second file returns is line-aligned, and it does return for every
    selection inside the document; a command of [src/extension.ts]
    returns a line-aligned selection for every input selection. *)
Theorem transforms_line_aligned
  (doc : TextDocument) (sel : Selection) (c : Command) :
  1 <= lineCount doc ->
  (forall out, part001Handler c doc sel = Ok out -> lineAligned doc out = true)
  /\ (insideDocument doc sel ->
      exists out, part001Handler c doc sel = Ok out /\ lineAligned doc out = true)
  /\ (exists out, extensionHandler c doc sel = Ok out /\ lineAligned doc out = true).
Proof.
  intros Hlc.
  assert (Hpc : forall out, part001Handler c doc sel = Ok out ->
                            lineAligned doc out = true).
  { intros out Hout.
    exact (proj1 (built_result doc out (part001_handler_built doc sel out c Hout) Hlc)). }
  split; [exact Hpc|]. split.
  - intros Hin.
    destruct (refined_output _ _ _ part001_classifies part001_resolve_inside
                part001_handler_refines doc sel c Hin)
      as (_ & _ & _ & _ & out & _ & _ & _ & Hh & _).
    exists out. split; [exact Hh | exact (Hpc out Hh)].
  - destruct (extension_handler_total doc sel c Hlc) as [out Hout].
    exists out. split; [exact Hout|].
    exact (proj1 (built_result doc out (extension_handler_built doc sel out c Hout) Hlc)).
Qed.

Lemma transforms_line_aligned_witness :
  1 <= lineCount doc5
  /\ exists out,
       part001Handler InwardsDown doc5 (mkSelection (pos 1 2) (pos 3 1)) = Ok out
       /\ lineAligned doc5 out = true.
Proof.
  assert (Hlc : 1 <= lineCount doc5) by (cbv; discriminate).
  split; [exact Hlc|].
  refine (proj1 (proj2 (transforms_line_aligned doc5
                          (mkSelection (pos 1 2) (pos 3 1)) InwardsDown Hlc)) _).
  cbv; reflexivity.
Defined.

(** * Further properties of the code *)

(** ** The helpers *)

(** [clamp] keeps a number between its bounds and leaves a number inside
    them alone; with the bounds the wrong way round (as for the last line
    of an empty document, [hi = -1]) it returns the lower bound. *)
Theorem clamp_between (n lo hi : Z) :
  (lo <= hi -> lo <= clamp n lo hi <= hi)
  /\ (lo <= n <= hi -> clamp n lo hi = n)
  /\ (n < lo -> clamp n lo hi = lo)
  /\ (lo <= hi < n -> clamp n lo hi = hi)
  /\ (hi < lo -> clamp n lo hi = lo)
  /\ clamp (clamp n lo hi) lo hi = clamp n lo hi.
Proof. unfold clamp. repeat split; lia. Qed.

(** [posLineStart] never fails and always answers column 0: of the line
    asked for when it is a line of the document, of line 0 below that, of
    the last line above, and of line 0 when the document has no line. *)
Theorem posLineStart_clamps (doc : TextDocument) (l : Z) :
  exists p,
    posLineStart doc l = Ok p
    /\ characterZ p = 0
    /\ lineZ p = clamp l 0 (lineCount doc - 1)
    /\ 0 <= lineZ p
    /\ (1 <= lineCount doc -> lineZ p < lineCount doc)
    /\ (0 <= l < lineCount doc -> lineZ p = l)
    /\ (l < 0 -> lineZ p = 0)
    /\ (1 <= lineCount doc <= l -> lineZ p = lineCount doc - 1)
    /\ (lineCount doc = 0 -> lineZ p = 0).
Proof.
  rewrite posLineStart_clamped. eexists. split; [reflexivity|].
  unfold clamp. posfields. repeat split; lia.
Qed.

(** [posEndForExclusiveLine] in full: column 0 of the line asked for when
    it is a line of the document; the end of the last line's text from
    [lineCount] on; a failure for a negative line (the position cannot be
    made) and on a document without lines (there is no last line). *)
Theorem posEndForExclusiveLine_cases (doc : TextDocument) (b : Z) :
  (0 <= b < lineCount doc ->
   posEndForExclusiveLine doc b = Ok (mkPosition (Z.to_N b) 0))
  /\ (1 <= lineCount doc <= b ->
      exists s,
        nth_error (lines doc) (Z.to_nat (lineCount doc - 1)) = Some s
        /\ posEndForExclusiveLine doc b
           = Ok (mkPosition (Z.to_N (lineCount doc - 1)) (N.of_nat (String.length s))))
  /\ (b < 0 -> posEndForExclusiveLine doc b = Throw IllegalArgument)
  /\ (lineCount doc = 0 -> 0 <= b ->
      posEndForExclusiveLine doc b = Throw IllegalLine).
Proof.
  pose proof (lineCount_nonneg doc) as Hlc.
  split; [|split; [|split]].
  - apply posEndForExclusiveLine_inside.
  - intros H. rewrite posEndForExclusiveLine_past by lia.
    destruct (lineAt_inside doc (lineCount doc - 1)) as (s & Hn & ->); [lia|].
    exists s. split; [exact Hn|]. reflexivity.
  - intros H. unfold posEndForExclusiveLine, newPosition. zbool; try lia; reflexivity.
  - intros H0 Hb. rewrite posEndForExclusiveLine_past by lia.
    rewrite lineAt_outside by lia. reflexivity.
Qed.

(** ** The builder *)

Lemma buildSelection_block (doc : TextDocument) (t b : Z) (pin : bool) :
  0 <= t < lineCount doc -> 0 <= b < lineCount doc ->
  buildSelection doc t b pin = Ok (lineBlock t b pin).
Proof.
  intros Ht Hb. unfold buildSelection, lineBlock.
  rewrite posLineStart_inside, posEndForExclusiveLine_inside by lia.
  destruct pin; reflexivity.
Qed.

Lemma lineBlock_ends (t b : Z) (pin : bool) :
  0 <= t <= b ->
  start (lineBlock t b pin) = mkPosition (Z.to_N t) 0
  /\ end_ (lineBlock t b pin) = mkPosition (Z.to_N b) 0.
Proof.
  intros H.
  destruct (ordered_ends (mkPosition (Z.to_N t) 0) (mkPosition (Z.to_N b) 0) pin)
    as [Hs He]; [reflexivity | posfields; lia |].
  exact (conj Hs He).
Qed.

(** The anchor follows the flag when the range is the right way round: the
    same two ends for either flag, the anchor on the later one with
    [anchorAtEnd] and on the earlier one without.  That is so whenever the
    top is not below the bottom, and also when the bottom is at or beyond
    the last line, where the top is clamped back to it.  The builder
    checks nothing: handed a bottom above the top and above the last line,
    it returns the lines between them with the anchor on the wrong side;
    handed the last line as the bottom and a top below it, it returns the
    caret at the start of the last line. *)
Theorem buildSelection_anchor (doc : TextDocument) (t b : Z) :
  1 <= lineCount doc -> 0 <= b ->
  exists s e,
    posLineStart doc t = Ok s
    /\ posEndForExclusiveLine doc b = Ok e
    /\ buildSelection doc t b true = Ok (mkSelection e s)
    /\ buildSelection doc t b false = Ok (mkSelection s e)
    /\ (t <= b \/ lineCount doc - 1 <= b ->
        start (mkSelection e s) = s /\ end_ (mkSelection e s) = e
        /\ start (mkSelection s e) = s /\ end_ (mkSelection s e) = e)
    /\ (b < t -> b < lineCount doc - 1 ->
        start (mkSelection e s) = e /\ end_ (mkSelection e s) = s
        /\ isEmpty (mkSelection e s) = false)
    /\ (b < t -> b = lineCount doc - 1 ->
        s = e /\ isEmpty (mkSelection e s) = true).
Proof.
  intros Hlc Hb.
  destruct (posEndForExclusiveLine_total doc b Hlc Hb) as [e He].
  destruct (posEndForExclusiveLine_line doc b e He) as (_ & _ & Hl & Hc & _).
  unfold buildSelection. rewrite posLineStart_clamped, He. cbn [bind].
  set (s := mkPosition (Z.to_N (Z.max 0 (Z.min t (lineCount doc - 1)))) 0).
  assert (Hsl : lineZ s = Z.max 0 (Z.min t (lineCount doc - 1)))
    by (unfold s; posfields; lia).
  assert (Hsc : characterZ s = 0) by reflexivity.
  exists s, e. do 4 (split; [reflexivity|]). split; [|split].
  - intros Htb.
    destruct (ordered_ends s e true Hsc) as [H1 H2]; [lia|].
    destruct (ordered_ends s e false Hsc) as [H3 H4]; [lia|].
    auto.
  - intros Hbt Hbl.
    destruct (ordered_ends e s false) as [H1 H2]; [apply Hc; lia | lia |].
    cbn zeta in H1, H2. split; [exact H1|]. split; [exact H2|].
    unfold isEmpty. rewrite H1, H2.
    unfold isEqual. zbool; try lia; reflexivity.
  - intros Hbt Hbl.
    assert (Hse : s = e).
    { apply position_eq; [lia|]. rewrite Hsc. symmetry. apply Hc. lia. }
    split; [exact Hse|]. rewrite Hse.
    unfold isEmpty, start, end_. cbn [anchor active].
    destruct (isBefore e e); apply isEqual_refl.
Qed.

(** Lines 1 to 3 of [doc5]; the same with top and bottom exchanged; and a
    top beyond the document with the bottom on the last line. *)
Lemma buildSelection_anchor_witness :
  buildSelection doc5 1 3 true = Ok (mkSelection (pos 3 0) (pos 1 0))
  /\ buildSelection doc5 3 1 true = Ok (mkSelection (pos 1 0) (pos 3 0))
  /\ buildSelection doc5 7 4 true = Ok (mkSelection (pos 4 0) (pos 4 0)).
Proof.
  destruct (buildSelection_anchor doc5 1 3) as (s & e & Hs & He & Hb & _);
    [cbv; discriminate | lia |].
  destruct (buildSelection_anchor doc5 3 1) as (s' & e' & Hs' & He' & Hb' & _);
    [cbv; discriminate | lia |].
  destruct (buildSelection_anchor doc5 7 4) as (s2 & e2 & Hs2 & He2 & Hb2 & _);
    [cbv; discriminate | lia |].
  cbv in Hs, He, Hs', He', Hs2, He2.
  injection Hs as <-. injection He as <-.
  injection Hs' as <-. injection He' as <-.
  injection Hs2 as <-. injection He2 as <-.
  split; [exact Hb | split; [exact Hb' | exact Hb2]].
Defined.

(** A block of whole lines that ends before the last line: what it looks
    like to the classification and to the two resolvers. *)
Lemma lineBlock_resolved (doc : TextDocument) (t b : Z) (pin : bool) :
  0 <= t < b -> b < lineCount doc ->
  isEmpty (lineBlock t b pin) = false
  /\ insideDocument doc (lineBlock t b pin)
  /\ Part001.hasPartialLineSelection (lineBlock t b pin) doc = Ok false
  /\ Part001.fullLineRange (lineBlock t b pin) doc = Ok (t, b)
  /\ Extension.fullLineRange (lineBlock t b pin) doc = Ok (t, b).
Proof.
  intros Ht Hb.
  destruct (lineBlock_ends t b pin) as [Hs He]; [lia|].
  assert (Hne : isEmpty (lineBlock t b pin) = false).
  { unfold isEmpty. rewrite Hs, He. unfold isEqual. posfields.
    zbool; try lia; reflexivity. }
  assert (Hp : Part001.hasPartialLineSelection (lineBlock t b pin) doc = Ok false).
  { rewrite (hasPartial_nonempty doc _ Hne), Hs, He. posfields.
    zbool; try lia; reflexivity. }
  split; [exact Hne|]. split.
  { unfold insideDocument. rewrite He. posfields. lia. }
  split; [exact Hp|]. split.
  - rewrite (fullLineRange_full doc _ Hne Hp), Hs, He. posfields.
    do 2 f_equal; lia.
  - unfold Extension.fullLineRange.
    rewrite Hne, (nonempty_pMin _ Hne), (nonempty_pMax _ Hne), Hs, He.
    posfields. zbool; try lia. do 2 f_equal; lia.
Qed.

(** Resolving what was built gives the range back: for a range of at
    least one line that ends before the last line, in both files (and the
    block is classified as full lines); in [src/extension.ts] also for a
    range that reaches the end of a document whose last line has text. *)
Theorem fullLineRange_of_built (doc : TextDocument) (t b : Z) (pin : bool) :
  0 <= t < b -> b <= lineCount doc ->
  exists out,
    buildSelection doc t b pin = Ok out
    /\ (b < lineCount doc ->
        Part001.hasPartialLineSelection out doc = Ok false
        /\ Part001.fullLineRange out doc = Ok (t, b)
        /\ Extension.fullLineRange out doc = Ok (t, b))
    /\ (forall e, endOfDocument doc = Ok e -> 0 < characterZ e ->
        Extension.fullLineRange out doc = Ok (t, b)).
Proof.
  intros Ht Hb.
  destruct (buildSelection_lines doc t b pin) as (out & Hbuild & Hsl & _ & _);
    [lia | lia |].
  exists out. split; [exact Hbuild|]. split.
  - intros Hlt. rewrite buildSelection_block in Hbuild by lia.
    injection Hbuild as <-.
    destruct (lineBlock_resolved doc t b pin Ht Hlt) as (_ & _ & Hp & Hr & Hx).
    auto.
  - intros e He Hpos.
    destruct (covered_built doc out t b) as (bg & Hg & _ & _ & _ & _ & Heof);
      [lia | lia | exact Hsl |].
    unfold coveredLines in Hg. rewrite Hg, (Heof e He Hpos).
    do 2 f_equal. lia.
Qed.

Lemma fullLineRange_of_built_witness :
  exists out,
    buildSelection doc5 1 3 false = Ok out
    /\ Part001.fullLineRange out doc5 = Ok (1, 3).
Proof.
  destruct (fullLineRange_of_built doc5 1 3 false) as (out & Hb & Hlt & _);
    [lia | cbv; discriminate |].
  exists out. split; [exact Hb|].
  apply Hlt. reflexivity.
Defined.

(** ** The commands on carets and on blocks of whole lines *)

(** On a caret inside the document both files hand the builder the same
    range. *)
Lemma caret_handlers (doc : TextDocument) (sel : Selection) (c : Command) :
  isEmpty sel = true -> insideDocument doc sel ->
  let L := lineZ (active sel) in
  0 <= L < lineCount doc
  /\ let '(t', b') := rangeAfter c (lineCount doc) true false L (L + 1) in
     part001Handler c doc sel = buildSelection doc t' b' (pinsBottom c)
     /\ extensionHandler c doc sel = buildSelection doc t' b' (pinsBottom c).
Proof.
  intros He Hin L.
  destruct (empty_caret sel He) as (Hs & Hen & _).
  pose proof Hin as Hin'. unfold insideDocument in Hin'. rewrite Hen in Hin'.
  pose proof (lineZ_nonneg (active sel)) as HL. fold L in Hin', HL.
  pose proof (hasPartial_empty doc sel He) as Hp.
  assert (Hr : Part001.fullLineRange sel doc = Ok (L, L + 1)).
  { rewrite (fullLineRange_empty doc sel He). fold L. do 2 f_equal. lia. }
  assert (Hx : Extension.fullLineRange sel doc = Ok (L, L + 1)).
  { unfold Extension.fullLineRange. rewrite He. fold L. do 2 f_equal. lia. }
  pose proof (part001_handler_refines doc sel c false L (L + 1) Hin Hp Hr) as H1.
  pose proof (extension_handler_refines doc sel c L (L + 1) Hin Hx) as H2.
  rewrite He in H1, H2. split; [lia|].
  destruct (rangeAfter c (lineCount doc) true false L (L + 1)) as [t' b'].
  exact (conj H1 H2).
Qed.

(** On a caret inside the document the two files do the same: an outward
    command selects the caret's line (to column 0 of the next line, or to
    the end of the document on the last line), with the anchor on the
    pinned side; an inward command puts the caret at column 0 of its
    line, whatever its column was. *)
Theorem commands_on_caret (doc : TextDocument) (sel : Selection) (c : Command) :
  isEmpty sel = true -> insideDocument doc sel ->
  let L := lineZ (active sel) in
  part001Handler c doc sel = extensionHandler c doc sel
  /\ (isOutward c = true ->
      part001Handler c doc sel = buildSelection doc L (L + 1) (pinsBottom c))
  /\ (isOutward c = false ->
      part001Handler c doc sel
      = Ok (mkSelection (mkPosition (Z.to_N L) 0) (mkPosition (Z.to_N L) 0))).
Proof.
  intros He Hin L.
  destruct (caret_handlers doc sel c He Hin) as (HL & Hh). fold L in HL, Hh.
  destruct (rangeAfter c (lineCount doc) true false L (L + 1)) as [t' b'] eqn:Hra.
  destruct Hh as [H1 H2].
  split; [congruence|]. rewrite H1. clear H1 H2.
  unfold rangeAfter, isStepped, stepRange, clamp in Hra.
  split; intros Hc; destruct c; try discriminate Hc;
    cbn [isOutward negb andb pinsBottom] in *.
  - injection Hra as <- <-. reflexivity.
  - injection Hra as <- <-. reflexivity.
  - revert Hra. zbool; try lia. intros [= <- <-].
    rewrite buildSelection_block by lia. unfold lineBlock.
    do 3 f_equal; lia.
  - revert Hra. zbool; try lia. intros [= <- <-].
    rewrite buildSelection_block by lia. reflexivity.
Qed.

Lemma commands_on_caret_witness :
  part001Handler InwardsUp doc5 (caretAt 2 3) = Ok (caretAt 2 0)
  /\ extensionHandler OutwardsUp doc5 (caretAt 4 1)
     = Ok (mkSelection (pos 4 7) (pos 4 0)).
Proof.
  destruct (commands_on_caret doc5 (caretAt 2 3) InwardsUp) as (_ & _ & Hin);
    [reflexivity | cbv; reflexivity |].
  destruct (commands_on_caret doc5 (caretAt 4 1) OutwardsUp) as (Heq & Hout & _);
    [reflexivity | cbv; reflexivity |].
  split.
  - rewrite (Hin eq_refl). reflexivity.
  - rewrite <- Heq, (Hout eq_refl). reflexivity.
Defined.

(** On a block of whole lines that ends before the last line, a command is
    the builder applied to the stepped range, in either file: whatever
    side the anchor of the block was on, the result is anchored as the
    command pins. *)
Lemma handlers_on_block (doc : TextDocument) (t b : Z) (pin : bool)
  (c : Command) :
  0 <= t < b -> b < lineCount doc ->
  let '(t', b') := stepRange c (lineCount doc) t b in
  part001Handler c doc (lineBlock t b pin)
  = buildSelection doc t' b' (pinsBottom c)
  /\ extensionHandler c doc (lineBlock t b pin)
     = buildSelection doc t' b' (pinsBottom c).
Proof.
  intros Ht Hb.
  destruct (lineBlock_resolved doc t b pin Ht Hb) as (Hne & Hin & Hp & Hr & Hx).
  pose proof (part001_handler_refines doc _ c false t b Hin Hp Hr) as H1.
  pose proof (extension_handler_refines doc _ c t b Hin Hx) as H2.
  rewrite Hne in H1, H2. unfold rangeAfter, isStepped in H1, H2.
  rewrite Bool.andb_false_r in H1, H2. cbn [negb andb] in H1, H2.
  destruct (stepRange c (lineCount doc) t b) as [t' b'].
  exact (conj H1 H2).
Qed.

(** Where the two files agree: on a caret, and on a selection whose two
    ends are at column 0, inside the document, every command returns the
    same selection in both. *)
Theorem files_agree_on_aligned (doc : TextDocument) (sel : Selection)
  (c : Command) :
  insideDocument doc sel ->
  isEmpty sel = true
  \/ (characterZ (start sel) = 0 /\ characterZ (end_ sel) = 0) ->
  part001Handler c doc sel = extensionHandler c doc sel.
Proof.
  intros Hin Hal.
  destruct (isEmpty sel) eqn:He.
  - destruct (caret_handlers doc sel c He Hin) as (_ & Hh).
    destruct (rangeAfter c (lineCount doc) true false _ _).
    destruct Hh; congruence.
  - destruct Hal as [Hal | [Hcs Hce]]; [discriminate|].
    pose proof (nonempty_lt sel He) as Hlt.
    assert (Hp : Part001.hasPartialLineSelection sel doc = Ok false).
    { rewrite (hasPartial_nonempty doc sel He). zbool; try lia; reflexivity. }
    destruct (part001_resolves doc sel false Hin Hp)
      as (top & botEx & Hr & Htop & _ & _ & _ & _ & Hcol & _).
    destruct (extension_fullLineRange_guard doc sel Hin)
      as (top' & botEx' & Hx & Htop' & _).
    pose proof (extension_resolved_bottom doc sel top' botEx' Hin Hx) as Hb'.
    pose proof (part001_resolved_bottom doc sel top botEx Hin
                  (or_intror (or_intror Hce)) Hr) as Hb.
    assert (Hx' : Extension.fullLineRange sel doc = Ok (top, botEx))
      by (rewrite Hx; congruence).
    pose proof (part001_handler_refines doc sel c false top botEx Hin Hp Hr) as H1.
    pose proof (extension_handler_refines doc sel c top botEx Hin Hx') as H2.
    destruct (rangeAfter c (lineCount doc) (isEmpty sel) false top botEx).
    congruence.
Qed.

Lemma files_agree_on_aligned_witness :
  part001Handler InwardsDown doc5 (mkSelection (pos 3 0) (pos 1 0))
  = extensionHandler InwardsDown doc5 (mkSelection (pos 3 0) (pos 1 0)).
Proof.
  apply files_agree_on_aligned.
  - cbv; reflexivity.
  - right. split; reflexivity.
Defined.

(** ** Snapping, then stepping *)

(** A partial selection inside the document, in the second file: the range
    it is snapped to and what every command returns. *)
Lemma partial_handlers (doc : TextDocument) (sel : Selection) (c : Command) :
  Part001.hasPartialLineSelection sel doc = Ok true ->
  insideDocument doc sel ->
  let '(top, botEx) := snappedRange sel in
  0 <= top < botEx /\ botEx <= lineCount doc
  /\ part001Handler c doc sel = buildSelection doc top botEx (pinsBottom c)
  /\ Extension.fullLineRange sel doc = Ok (top, botEx).
Proof.
  intros Hp Hin.
  pose proof (fullLineRange_partial doc sel Hp) as Hr.
  pose proof (snappedRange_partial_bounds doc sel Hp) as Hb.
  pose proof (partial_nonempty doc sel Hp) as He.
  destruct (snappedRange sel) as [top botEx] eqn:Hs. cbn [fst snd] in Hb.
  destruct (part001_resolves doc sel true Hin Hp)
    as (top' & botEx' & Hr' & _ & _ & Hle & _).
  rewrite Hr in Hr'. injection Hr' as <- <-.
  pose proof (part001_handler_refines doc sel c true top botEx Hin Hp Hr) as Hh.
  unfold rangeAfter, isStepped in Hh. cbn [negb andb] in Hh.
  destruct (extension_fullLineRange_guard doc sel Hin)
    as (t & bg & Hx & Ht & _).
  pose proof (extension_resolved_bottom doc sel t bg Hin Hx) as Hbg.
  pose proof (part001_resolved_bottom doc sel top botEx Hin
                (or_intror (or_introl Hp)) Hr) as Hbot.
  assert (Htop : top = lineZ (start sel)).
  { unfold snappedRange in Hs. now injection Hs as <- _. }
  repeat split; try lia; try exact Hh.
  rewrite Hx. congruence.
Qed.

(** After the snap the selection is no longer partial: for a partial
    selection that lies inside the document and ends before the last
    line, every command of the second file returns a selection that the
    same file classifies as full lines and resolves to the range the
    input was snapped to. *)
Theorem snap_gives_full_lines (doc : TextDocument) (sel : Selection)
  (c : Command) :
  Part001.hasPartialLineSelection sel doc = Ok true ->
  insideDocument doc sel ->
  snd (snappedRange sel) < lineCount doc ->
  exists out,
    part001Handler c doc sel = Ok out
    /\ isEmpty out = false
    /\ Part001.hasPartialLineSelection out doc = Ok false
    /\ Part001.fullLineRange out doc = Ok (snappedRange sel).
Proof.
  intros Hp Hin Hlt.
  pose proof (partial_handlers doc sel c Hp Hin) as H.
  destruct (snappedRange sel) as [top botEx]. cbn [snd] in Hlt.
  destruct H as (Ht & _ & Hh & _).
  rewrite buildSelection_block in Hh by lia.
  destruct (lineBlock_resolved doc top botEx (pinsBottom c) Ht Hlt)
    as (Hne & _ & Hp' & Hr' & _).
  exists (lineBlock top botEx (pinsBottom c)). auto.
Qed.

Lemma snap_gives_full_lines_witness :
  exists out,
    part001Handler OutwardsDown doc5 (mkSelection (pos 1 1) (pos 2 3)) = Ok out
    /\ Part001.hasPartialLineSelection out doc5 = Ok false
    /\ Part001.fullLineRange out doc5 = Ok (1, 3).
Proof.
  destruct (snap_gives_full_lines doc5 (mkSelection (pos 1 1) (pos 2 3))
              OutwardsDown) as (out & Hh & _ & Hp & Hr);
    [reflexivity | cbv; reflexivity | cbv; reflexivity |].
  exists out. auto.
Defined.

(** What the classification of the second file changed: on a partial
    selection that ends before the last line, one call of a command of
    [src/extension.ts] does what two calls of the same command of the
    second file do, the first to snap and the second to step. *)
Theorem extension_is_snap_then_step (doc : TextDocument) (sel : Selection)
  (c : Command) :
  Part001.hasPartialLineSelection sel doc = Ok true ->
  insideDocument doc sel ->
  snd (snappedRange sel) < lineCount doc ->
  (snapped <- part001Handler c doc sel ;; part001Handler c doc snapped)
  = extensionHandler c doc sel.
Proof.
  intros Hp Hin Hlt.
  pose proof (partial_handlers doc sel c Hp Hin) as H.
  pose proof (partial_nonempty doc sel Hp) as He.
  destruct (snappedRange sel) as [top botEx]. cbn [snd] in Hlt.
  destruct H as (Ht & _ & Hh & Hx).
  rewrite Hh, buildSelection_block by lia. cbn [bind].
  pose proof (handlers_on_block doc top botEx (pinsBottom c) c Ht Hlt) as Hblock.
  pose proof (extension_handler_refines doc sel c top botEx Hin Hx) as Hext.
  rewrite He in Hext. unfold rangeAfter, isStepped in Hext.
  rewrite Bool.andb_false_r in Hext. cbn [negb andb] in Hext.
  destruct (stepRange c (lineCount doc) top botEx) as [t' b'].
  destruct Hblock as [H1 _]. congruence.
Qed.

Lemma extension_is_snap_then_step_witness :
  (snapped <- part001Handler OutwardsUp doc5 (mkSelection (pos 2 1) (pos 2 3)) ;;
   part001Handler OutwardsUp doc5 snapped)
  = Ok (mkSelection (pos 3 0) (pos 1 0))
  /\ extensionHandler OutwardsUp doc5 (mkSelection (pos 2 1) (pos 2 3))
     = Ok (mkSelection (pos 3 0) (pos 1 0)).
Proof.
  pose proof (extension_is_snap_then_step doc5 (mkSelection (pos 2 1) (pos 2 3))
                OutwardsUp eq_refl) as H.
  split; [rewrite H|]; try reflexivity; cbv; reflexivity.
Defined.

(** ** Growing and shrinking undo each other *)

(** On a block of whole lines, in either file: growing downwards and then
    shrinking from the bottom gives the block back, anchored at the top,
    when there is a line below the block that is not the last line;
    shrinking a block of two lines or more from the bottom and then
    growing downwards gives it back as well.  The same upwards, anchored
    at the bottom, when there is a line above the block. *)
Theorem grow_and_shrink_undo (doc : TextDocument) (t b : Z) (pin : bool) :
  0 <= t < b -> b < lineCount doc ->
  (b + 1 < lineCount doc ->
   (s <- part001Handler OutwardsDown doc (lineBlock t b pin) ;;
    part001Handler InwardsDown doc s) = Ok (lineBlock t b false)
   /\ (s <- extensionHandler OutwardsDown doc (lineBlock t b pin) ;;
       extensionHandler InwardsDown doc s) = Ok (lineBlock t b false))
  /\ (t + 1 < b ->
      (s <- part001Handler InwardsDown doc (lineBlock t b pin) ;;
       part001Handler OutwardsDown doc s) = Ok (lineBlock t b false)
      /\ (s <- extensionHandler InwardsDown doc (lineBlock t b pin) ;;
          extensionHandler OutwardsDown doc s) = Ok (lineBlock t b false))
  /\ (0 < t ->
      (s <- part001Handler OutwardsUp doc (lineBlock t b pin) ;;
       part001Handler InwardsUp doc s) = Ok (lineBlock t b true)
      /\ (s <- extensionHandler OutwardsUp doc (lineBlock t b pin) ;;
          extensionHandler InwardsUp doc s) = Ok (lineBlock t b true))
  /\ (t + 1 < b ->
      (s <- part001Handler InwardsUp doc (lineBlock t b pin) ;;
       part001Handler OutwardsUp doc s) = Ok (lineBlock t b true)
      /\ (s <- extensionHandler InwardsUp doc (lineBlock t b pin) ;;
          extensionHandler OutwardsUp doc s) = Ok (lineBlock t b true)).
Proof.
  intros Ht Hb.
  assert (Hstep : forall c t0 b0 p t1 b1,
             0 <= t0 < b0 -> b0 < lineCount doc ->
             stepRange c (lineCount doc) t0 b0 = (t1, b1) ->
             0 <= t1 < lineCount doc -> 0 <= b1 < lineCount doc ->
             part001Handler c doc (lineBlock t0 b0 p)
             = Ok (lineBlock t1 b1 (pinsBottom c))
             /\ extensionHandler c doc (lineBlock t0 b0 p)
                = Ok (lineBlock t1 b1 (pinsBottom c))).
  { intros c t0 b0 p t1 b1 H0 H1 Hs H2 H3.
    pose proof (handlers_on_block doc t0 b0 p c H0 H1) as H.
    rewrite Hs in H. rewrite buildSelection_block in H by lia. exact H. }
  assert (Hdown : forall t0 b0, b0 < lineCount doc ->
             stepRange OutwardsDown (lineCount doc) t0 b0 = (t0, b0 + 1)).
  { intros. unfold stepRange. zbool; try lia; reflexivity. }
  assert (Hup : forall t0 b0, 0 < t0 ->
             stepRange OutwardsUp (lineCount doc) t0 b0 = (t0 - 1, b0)).
  { intros. unfold stepRange. zbool; try lia; reflexivity. }
  assert (Hidown : forall t0 b0, t0 + 1 < b0 ->
             stepRange InwardsDown (lineCount doc) t0 b0 = (t0, b0 - 1)).
  { intros. unfold stepRange. zbool; try lia; reflexivity. }
  assert (Hiup : forall t0 b0, t0 + 1 < b0 ->
             stepRange InwardsUp (lineCount doc) t0 b0 = (t0 + 1, b0)).
  { intros. unfold stepRange. zbool; try lia; reflexivity. }
  split; [|split; [|split]]; intros Hroom.
  - destruct (Hstep OutwardsDown t b pin t (b + 1)) as [-> ->];
      try apply Hdown; try lia. cbn [bind pinsBottom].
    destruct (Hstep InwardsDown t (b + 1) false t b) as [-> ->]; try lia.
    + rewrite Hidown by lia. do 2 f_equal. lia.
    + split; reflexivity.
  - destruct (Hstep InwardsDown t b pin t (b - 1)) as [-> ->];
      try apply Hidown; try lia. cbn [bind pinsBottom].
    destruct (Hstep OutwardsDown t (b - 1) false t b) as [-> ->]; try lia.
    + rewrite Hdown by lia. do 2 f_equal. lia.
    + split; reflexivity.
  - destruct (Hstep OutwardsUp t b pin (t - 1) b) as [-> ->];
      try apply Hup; try lia. cbn [bind pinsBottom].
    destruct (Hstep InwardsUp (t - 1) b true t b) as [-> ->]; try lia.
    + rewrite Hiup by lia. do 2 f_equal. lia.
    + split; reflexivity.
  - destruct (Hstep InwardsUp t b pin (t + 1) b) as [-> ->];
      try apply Hiup; try lia. cbn [bind pinsBottom].
    destruct (Hstep OutwardsUp (t + 1) b true t b) as [-> ->]; try lia.
    + rewrite Hup by lia. do 2 f_equal. lia.
    + split; reflexivity.
Qed.

Lemma grow_and_shrink_undo_witness :
  (s <- part001Handler OutwardsDown doc5 (lineBlock 1 2 false) ;;
   part001Handler InwardsDown doc5 s) = Ok (lineBlock 1 2 false).
Proof.
  destruct (grow_and_shrink_undo doc5 1 2 false) as (H & _);
    [lia | cbv; reflexivity |].
  apply H. cbv; reflexivity.
Defined.

(** ** The same command again and again *)

(** One more [outwardsDown] on a selection built from the top-pinned range
    [(L, b)]: the range [(L, b + 1)], or the same selection again once the
    range has reached the end of the document. *)
Lemma outwardsDown_on_built (doc : TextDocument) (L b : Z) (sel : Selection) :
  0 <= L < lineCount doc -> L < b <= lineCount doc ->
  buildSelection doc L b false = Ok sel ->
  part001Handler OutwardsDown doc sel
  = buildSelection doc L (Z.min (b + 1) (lineCount doc)) false
  /\ extensionHandler OutwardsDown doc sel
     = buildSelection doc L (Z.min (b + 1) (lineCount doc)) false.
Proof.
  intros HL Hb Hbuild.
  destruct (Z.lt_ge_cases b (lineCount doc)) as [Hlt | Hge].
  - rewrite buildSelection_block in Hbuild by lia. injection Hbuild as <-.
    pose proof (handlers_on_block doc L b false OutwardsDown ltac:(lia) Hlt) as Hblk.
    unfold stepRange in Hblk. revert Hblk. zbool; try lia. intros Hblk.
    replace (Z.min (b + 1) (lineCount doc)) with (b + 1) by lia. exact Hblk.
  - assert (b = lineCount doc) by lia. subst b.
    replace (Z.min (lineCount doc + 1) (lineCount doc)) with (lineCount doc) by lia.
    destruct (buildSelection_lines doc L (lineCount doc) false)
      as (out & Hbuild' & Hsl & Hin & _); [lia | lia |].
    rewrite Hbuild in Hbuild'. injection Hbuild' as <-.
    destruct Hsl as [Hs He].
    destruct (posEndForExclusiveLine_line doc _ _ He) as (_ & _ & Hel & _ & Heof).
    specialize (Heof ltac:(lia)).
    assert (Hsl : lineZ (start sel) = L) by (rewrite Hs; posfields; lia).
    assert (Hsc : characterZ (start sel) = 0) by (rewrite Hs; reflexivity).
    pose proof (characterZ_nonneg (end_ sel)) as Hec.
    destruct (isEmpty sel) eqn:Hemp.
    + (* the last line is empty and is the only line of the range *)
      destruct (caret_handlers doc sel OutwardsDown Hemp Hin) as (_ & Hh).
      destruct (empty_caret sel Hemp) as (Hsa & Hea & _).
      assert (HLa : lineZ (active sel) = L) by congruence.
      assert (HLc : L + 1 = lineCount doc) by (rewrite <- Hea in HLa; lia).
      unfold rangeAfter, isStepped in Hh. cbn [isOutward negb andb] in Hh.
      rewrite HLa, HLc in Hh. exact Hh.
    + destruct (part001_classifies doc sel Hin) as [partial Hp].
      destruct (part001_resolves doc sel partial Hin Hp)
        as (top & botEx & Hr & Htop & _ & _ & _ & _ & Hcol & Hfull).
      pose proof (part001_handler_refines doc sel OutwardsDown partial top botEx
                    Hin Hp Hr) as H1.
      destruct (extension_fullLineRange_guard doc sel Hin)
        as (xt & xb & Hx & Hxt & Hxb).
      pose proof (extension_resolved_bottom doc sel xt xb Hin Hx) as Hxbot.
      pose proof (extension_handler_refines doc sel OutwardsDown xt xb Hin Hx) as H2.
      rewrite Hemp in H1, H2.
      unfold rangeAfter, isStepped, stepRange in H1, H2.
      cbn [isOutward negb andb] in H1, H2.
      rewrite Bool.andb_true_r in H1.
      unfold lastLine in Hxbot. rewrite Hemp in Hxbot.
      assert (Hxfin : (if xb <? lineCount doc then xb + 1 else xb) = lineCount doc).
      { revert Hxbot. zbool; lia. }
      rewrite Hxfin in H2. rewrite Hxt, Hsl in H2. split; [|exact H2].
      rewrite Htop, Hsl in H1.
      assert (Hpfin : (if negb partial
                       then (L, if botEx <? lineCount doc then botEx + 1 else botEx)
                       else (L, botEx)) = (L, lineCount doc)).
      { destruct partial; cbn [negb].
        - pose proof (part001_resolved_bottom doc sel top botEx Hin
                        (or_intror (or_introl Hp)) Hr) as Hbot.
          unfold lastLine in Hbot. rewrite Hemp in Hbot.
          rewrite (hasPartial_nonempty doc sel Hemp) in Hp.
          pose proof (nonempty_lt sel Hemp) as Hlt.
          revert Hp Hbot. zbool; try lia; try discriminate.
          + (* one line: the end of the document is not before the end of
               the line *)
            unfold endOfDocument in Heof.
            replace (lineZ (start sel)) with (lineCount doc - 1) by lia.
            destruct (lineAt doc (lineCount doc - 1)) as [tl|]; [|discriminate].
            cbn [bind] in *. injection Heof as Heq.
            rewrite <- Heq. posfields. zbool; try lia. discriminate.
          + intros _ ->. f_equal. lia.
        - rewrite (Hfull Hemp eq_refl), Hel.
          zbool; try lia; f_equal; lia. }
      cbn [negb] in H1. destruct partial; cbn [negb] in *.
      * injection Hpfin as ->. exact H1.
      * injection Hpfin as Hfin. rewrite Hfin in H1. exact H1.
Qed.

(** From a caret on line [L] inside the document, [n >= 1] calls of
    [outwardsDown] select the [n] lines from [L] on, and never more than
    the document has: the result is the selection built from
    [(L, min (L + n) lineCount)], anchored at the top, in either file. *)
Theorem outwardsDown_repeated (doc : TextDocument) (sel : Selection) (n : nat) :
  isEmpty sel = true -> insideDocument doc sel -> (1 <= n)%nat ->
  let L := lineZ (active sel) in
  repeatM n (part001Handler OutwardsDown doc) sel
  = buildSelection doc L (Z.min (L + Z.of_nat n) (lineCount doc)) false
  /\ repeatM n (extensionHandler OutwardsDown doc) sel
     = buildSelection doc L (Z.min (L + Z.of_nat n) (lineCount doc)) false.
Proof.
  intros He Hin Hn L.
  destruct (caret_handlers doc sel OutwardsDown He Hin) as (HL & Hh).
  fold L in HL, Hh.
  unfold rangeAfter, isStepped in Hh. cbn [isOutward negb andb pinsBottom] in Hh.
  destruct n as [|m]; [lia|]. clear Hn.
  induction m as [|m IH].
  - cbn [repeatM bind].
    replace (Z.min (L + Z.of_nat 1) (lineCount doc)) with (L + 1) by lia.
    exact Hh.
  - destruct IH as [IH1 IH2].
    set (b := Z.min (L + Z.of_nat (S m)) (lineCount doc)) in *.
    destruct (buildSelection_total doc L b false) as [s Hs]; [lia | lia |].
    destruct (outwardsDown_on_built doc L b s HL ltac:(lia) Hs) as [H1 H2].
    replace (Z.min (L + Z.of_nat (S (S m))) (lineCount doc))
      with (Z.min (b + 1) (lineCount doc)) by lia.
    split.
    + change (repeatM (S (S m)) (part001Handler OutwardsDown doc) sel)
        with (s' <- repeatM (S m) (part001Handler OutwardsDown doc) sel ;;
              part001Handler OutwardsDown doc s').
      rewrite IH1, Hs. exact H1.
    + change (repeatM (S (S m)) (extensionHandler OutwardsDown doc) sel)
        with (s' <- repeatM (S m) (extensionHandler OutwardsDown doc) sel ;;
              extensionHandler OutwardsDown doc s').
      rewrite IH2, Hs. exact H2.
Qed.

(** Nine times down from line 3 of a five-line document: lines 3 and 4. *)
Lemma outwardsDown_repeated_witness :
  repeatM 9 (part001Handler OutwardsDown doc5) (caretAt 3 2)
  = Ok (mkSelection (pos 3 0) (pos 4 7)).
Proof.
  destruct (outwardsDown_repeated doc5 (caretAt 3 2) 9) as [H _];
    [reflexivity | cbv; reflexivity | lia |].
  rewrite H. reflexivity.
Defined.

(** From a caret on a line [L] that is not the last, [n >= 1] calls of
    [outwardsUp] select the [n] lines that end with [L], and stop at the
    first line of the document: lines [max (L + 1 - n) 0] to [L], anchored
    at the bottom, in either file. *)
Theorem outwardsUp_repeated (doc : TextDocument) (sel : Selection) (n : nat) :
  isEmpty sel = true -> (1 <= n)%nat ->
  let L := lineZ (active sel) in
  L + 1 < lineCount doc ->
  repeatM n (part001Handler OutwardsUp doc) sel
  = Ok (lineBlock (Z.max (L + 1 - Z.of_nat n) 0) (L + 1) true)
  /\ repeatM n (extensionHandler OutwardsUp doc) sel
     = Ok (lineBlock (Z.max (L + 1 - Z.of_nat n) 0) (L + 1) true).
Proof.
  intros He Hn L HL1.
  assert (Hin : insideDocument doc sel).
  { unfold insideDocument. destruct (empty_caret sel He) as (_ & -> & _).
    fold L. lia. }
  destruct (caret_handlers doc sel OutwardsUp He Hin) as (HL & Hh).
  fold L in HL, Hh.
  unfold rangeAfter, isStepped in Hh. cbn [isOutward negb andb pinsBottom] in Hh.
  rewrite buildSelection_block in Hh by lia.
  destruct n as [|m]; [lia|]. clear Hn.
  induction m as [|m IH].
  - cbn [repeatM bind].
    replace (Z.max (L + 1 - Z.of_nat 1) 0) with L by lia. exact Hh.
  - destruct IH as [IH1 IH2].
    set (t := Z.max (L + 1 - Z.of_nat (S m)) 0) in *.
    pose proof (handlers_on_block doc t (L + 1) true OutwardsUp
                  ltac:(lia) ltac:(lia)) as Hblk.
    unfold stepRange in Hblk. cbn [pinsBottom] in Hblk.
    rewrite buildSelection_block in Hblk by (zbool; lia).
    replace (Z.max (L + 1 - Z.of_nat (S (S m))) 0)
      with (if t >? 0 then t - 1 else t) by (zbool; lia).
    split.
    + change (repeatM (S (S m)) (part001Handler OutwardsUp doc) sel)
        with (s' <- repeatM (S m) (part001Handler OutwardsUp doc) sel ;;
              part001Handler OutwardsUp doc s').
      rewrite IH1. exact (proj1 Hblk).
    + change (repeatM (S (S m)) (extensionHandler OutwardsUp doc) sel)
        with (s' <- repeatM (S m) (extensionHandler OutwardsUp doc) sel ;;
              extensionHandler OutwardsUp doc s').
      rewrite IH2. exact (proj2 Hblk).
Qed.

Lemma outwardsUp_repeated_witness :
  repeatM 5 (extensionHandler OutwardsUp doc5) (caretAt 2 1)
  = Ok (mkSelection (pos 3 0) (pos 0 0)).
Proof.
  destruct (outwardsUp_repeated doc5 (caretAt 2 1) 5) as [_ H];
    [reflexivity | lia | cbv; reflexivity |].
  rewrite H. reflexivity.
Defined.

(** ** Where the second file fails *)

Lemma hasPartial_throws (doc : TextDocument) (sel : Selection) :
  (isEmpty sel = false /\ characterZ (start sel) = 0
   /\ lineZ (start sel) = lineZ (end_ sel)
   /\ lineCount doc <= lineZ (start sel) ->
   Part001.hasPartialLineSelection sel doc = Throw IllegalLine)
  /\ (forall e, Part001.hasPartialLineSelection sel doc = Throw e ->
        isEmpty sel = false /\ characterZ (start sel) = 0
        /\ lineZ (start sel) = lineZ (end_ sel)
        /\ lineCount doc <= lineZ (start sel)).
Proof.
  pose proof (lineZ_nonneg (start sel)) as Hs0. split.
  - intros (He & Hc & Hl & Hout).
    rewrite (hasPartial_nonempty doc sel He), lineAt_outside by lia.
    zbool; try lia; reflexivity.
  - intros e. destruct (isEmpty sel) eqn:He.
    + rewrite (hasPartial_empty doc sel He). discriminate.
    + rewrite (hasPartial_nonempty doc sel He).
      zbool; try discriminate.
      destruct (Z.lt_ge_cases (lineZ (start sel)) (lineCount doc)) as [Hlt | Hge].
      * destruct (lineAt_inside doc (lineZ (start sel))) as (s & _ & ->); [lia|].
        cbn [bind]. discriminate.
      * intros _. repeat split; try assumption; lia.
Qed.

Lemma part001_returns_when_classified (doc : TextDocument) (sel : Selection)
  (c : Command) (partial : bool) :
  1 <= lineCount doc ->
  Part001.hasPartialLineSelection sel doc = Ok partial ->
  exists out, part001Handler c doc sel = Ok out.
Proof.
  intros Hlc Hp.
  pose proof (lineZ_nonneg (active sel)). pose proof (lineZ_nonneg (pMinOf sel)).
  pose proof (lineZ_nonneg (pMaxOf sel)).
  assert (Hr : exists top botEx,
             Part001.fullLineRange sel doc = Ok (top, botEx)
             /\ 0 <= top /\ 0 <= botEx
             /\ (partial = true -> isEmpty sel = false)).
  { unfold Part001.fullLineRange. rewrite Hp. cbn [bind].
    destruct (isEmpty sel) eqn:He.
    - rewrite (hasPartial_empty doc sel He) in Hp. injection Hp as <-.
      eexists _, _. split; [reflexivity|]. repeat split; try lia; discriminate.
    - pose proof (nonempty_lt sel He). pose proof (characterZ_nonneg (start sel)).
      pose proof (lineZ_nonneg (start sel)).
      rewrite (nonempty_pMax sel He) in *.
      destruct partial; [destruct (characterZ (end_ sel) =? 0) eqn:Hz|];
        try apply Z.eqb_eq in Hz;
        eexists _, _; (split; [reflexivity|]); repeat split; lia. }
  destruct Hr as (top & botEx & Hr & Ht & Hb & Hpe).
  destruct c; cbn [part001Handler];
    [ unfold Part001.outwardsUpSel | unfold Part001.inwardsUpSel
    | unfold Part001.outwardsDownSel | unfold Part001.inwardsDownSel ];
    rewrite Hp, Hr; cbn [bind];
    destruct partial; rewrite ?(Hpe eq_refl); cbn [bind];
    rewrite ?posLineStart_clamped; cbn [bind];
    repeat match goal with
      | |- context [if ?b then _ else _] =>
          let E := fresh "E" in destruct b eqn:E
      end;
    zbool; eauto; apply buildSelection_total; lia.
Qed.

(** On a document with at least one line, a command of the second file
    fails on exactly one kind of selection: a non-empty one on a single
    line beyond the last line of the document that starts at column 0
    (the classification then asks the host for a line that is not there).
    The failure is the host's; on every other selection, also one that
    lies beyond the document, the command returns. *)
Theorem part001_fails_exactly (doc : TextDocument) (sel : Selection)
  (c : Command) :
  1 <= lineCount doc ->
  let beyond :=
    isEmpty sel = false /\ characterZ (start sel) = 0
    /\ lineZ (start sel) = lineZ (end_ sel)
    /\ lineCount doc <= lineZ (start sel) in
  (beyond -> part001Handler c doc sel = Throw IllegalLine)
  /\ (~ beyond -> exists out, part001Handler c doc sel = Ok out)
  /\ (forall e, part001Handler c doc sel = Throw e -> beyond /\ e = IllegalLine).
Proof.
  intros Hlc beyond.
  destruct (hasPartial_throws doc sel) as [Hthrow Hconv]. fold beyond in Hthrow, Hconv.
  assert (Hfail : beyond -> part001Handler c doc sel = Throw IllegalLine).
  { intros Hb. pose proof (Hthrow Hb) as Hp. destruct Hb as (He & _).
    destruct c; cbn [part001Handler];
      [ unfold Part001.outwardsUpSel | unfold Part001.inwardsUpSel
      | unfold Part001.outwardsDownSel | unfold Part001.inwardsDownSel ];
      rewrite ?He, Hp; reflexivity. }
  assert (Hok : ~ beyond -> exists out, part001Handler c doc sel = Ok out).
  { intros Hnb.
    destruct (Part001.hasPartialLineSelection sel doc) as [partial|e] eqn:Hp.
    - exact (part001_returns_when_classified doc sel c partial Hlc Hp).
    - destruct (Hnb (Hconv e eq_refl)). }
  split; [exact Hfail|]. split; [exact Hok|].
  intros e He.
  destruct (Part001.hasPartialLineSelection sel doc) as [partial|e'] eqn:Hp.
  - destruct (part001_returns_when_classified doc sel c partial Hlc Hp) as [out Hout].
    congruence.
  - pose proof (Hconv e' eq_refl) as Hb. split; [exact Hb|].
    rewrite (Hfail Hb) in He. congruence.
Qed.

Lemma part001_fails_exactly_witness :
  part001Handler InwardsUp (mkDocument ["a"%string]) (mkSelection (pos 3 0) (pos 3 2))
  = Throw IllegalLine
  /\ exists out,
       part001Handler InwardsUp (mkDocument ["a"%string])
         (mkSelection (pos 3 1) (pos 3 2)) = Ok out.
Proof.
  assert (Hlc : 1 <= lineCount (mkDocument ["a"%string])) by (cbv; discriminate).
  split.
  - apply (part001_fails_exactly _ _ InwardsUp Hlc).
    repeat split; cbv; try reflexivity; discriminate.
  - apply (part001_fails_exactly _ _ InwardsUp Hlc).
    intros (_ & Hc & _). cbv in Hc. discriminate.
Defined.

(** ** Several cursors *)

Lemma mapM_ok {A B : Type} (f : A -> result B) (l : list A) (l' : list B) :
  mapM f l = Ok l' <-> Forall2 (fun a b => f a = Ok b) l l'.
Proof.
  revert l'. induction l as [|a l IH]; intros l'; cbn [mapM].
  - split.
    + intros [= <-]. constructor.
    + intros H. inversion H. reflexivity.
  - split.
    + destruct (f a) as [b|e] eqn:Hf; cbn [bind]; [|discriminate].
      destruct (mapM f l) as [bs|e] eqn:Hm; cbn [bind]; [|discriminate].
      intros [= <-]. constructor; [exact Hf|]. now apply IH.
    + intros H. inversion H as [|a0 b l0 bs Hf Hrest]; subst.
      rewrite Hf. cbn [bind]. apply IH in Hrest. rewrite Hrest. reflexivity.
Qed.

Lemma mapM_throws {A B : Type} (f : A -> result B) (l : list A) :
  (exists e, mapM f l = Throw e) <-> Exists (fun a => exists e, f a = Throw e) l.
Proof.
  induction l as [|a l IH]; cbn [mapM].
  - split.
    + intros [e H]. discriminate.
    + intros H. inversion H.
  - destruct (f a) as [b|e] eqn:Hf; cbn [bind].
    + destruct (mapM f l) as [bs|e] eqn:Hm; cbn [bind].
      * split.
        -- intros [e H]. discriminate.
        -- intros H. inversion H as [? ? [e He] | ? ? Hrest]; subst.
           ++ congruence.
           ++ apply IH in Hrest. destruct Hrest as [e He]. discriminate.
      * split.
        -- intros _. apply Exists_cons_tl. apply IH. eauto.
        -- intros _. eauto.
    + split.
      * intros _. apply Exists_cons_hd. eauto.
      * intros _. eauto.
Qed.

(** A command on the editor is all or nothing.  It returns exactly when
    the transform returns for every selection, and then the editor has the
    same document and, in the same order and number, the transformed
    selections; it fails exactly when the transform fails for some
    selection, and then no selection is replaced.  The four functions of
    each file are the command table applied this way. *)
Theorem command_all_or_nothing
  (f : TextDocument -> Selection -> result Selection) (editor : TextEditor) :
  (forall editor',
      mapSelections f editor = Ok editor'
      <-> (document editor' = document editor
           /\ Forall2 (fun s s' => f (document editor) s = Ok s')
                (selections editor) (selections editor')))
  /\ (forall editor',
        mapSelections f editor = Ok editor' ->
        List.length (selections editor') = List.length (selections editor))
  /\ ((exists e, mapSelections f editor = Throw e)
      <-> Exists (fun s => exists e, f (document editor) s = Throw e)
            (selections editor))
  /\ (Part001.outwardsUp = part001Command OutwardsUp
      /\ Part001.inwardsUp = part001Command InwardsUp
      /\ Part001.outwardsDown = part001Command OutwardsDown
      /\ Part001.inwardsDown = part001Command InwardsDown
      /\ Extension.outwardsUp = extensionCommand OutwardsUp
      /\ Extension.inwardsUp = extensionCommand InwardsUp
      /\ Extension.outwardsDown = extensionCommand OutwardsDown
      /\ Extension.inwardsDown = extensionCommand InwardsDown).
Proof.
  assert (Hok : forall editor',
             mapSelections f editor = Ok editor'
             <-> (document editor' = document editor
                  /\ Forall2 (fun s s' => f (document editor) s = Ok s')
                       (selections editor) (selections editor'))).
  { intros [doc' sels']. unfold mapSelections. cbn [document selections].
    destruct (mapM (f (document editor)) (selections editor)) as [sels|e] eqn:Hm;
      cbn [bind].
    - apply mapM_ok in Hm. split.
      + intros [= <- <-]. auto.
      + intros [-> H]. apply mapM_ok in H. apply mapM_ok in Hm.
        rewrite Hm in H. injection H as ->. reflexivity.
    - split; [discriminate|]. intros [_ H]. apply mapM_ok in H. congruence. }
  split; [exact Hok|]. split; [|split].
  - intros editor' H. apply Hok in H. destruct H as [_ H].
    symmetry. exact (Forall2_length H).
  - unfold mapSelections. rewrite <- mapM_throws.
    destruct (mapM (f (document editor)) (selections editor)) as [sels|e];
      cbn [bind]; split; intros [e' H]; try discriminate; eauto.
  - repeat split; reflexivity.
Qed.

(** With every cursor inside the document, a command of the second file
    returns, and every selection it returns is again inside the document
    and line-aligned: the commands can be chained for ever.  A command of
    [src/extension.ts] does so for any cursors, once the document has a
    line. *)
Theorem commands_keep_cursors_inside (editor : TextEditor) (c : Command) :
  let doc := document editor in
  (Forall (insideDocument doc) (selections editor) ->
   exists editor',
     part001Command c editor = Ok editor'
     /\ document editor' = doc
     /\ List.length (selections editor') = List.length (selections editor)
     /\ Forall (fun s => insideDocument doc s /\ lineAligned doc s = true)
          (selections editor'))
  /\ (1 <= lineCount doc ->
      exists editor',
        extensionCommand c editor = Ok editor'
        /\ document editor' = doc
        /\ List.length (selections editor') = List.length (selections editor)
        /\ Forall (fun s => insideDocument doc s /\ lineAligned doc s = true)
             (selections editor')).
Proof.
  destruct editor as [doc sels]. cbn [document selections].
  unfold part001Command, extensionCommand, mapSelections.
  cbn [document selections]. split.
  - induction sels as [|s sels IH]; intros Hall.
    + eexists. cbn. repeat split; constructor.
    + inversion Hall as [|? ? Hs Hrest]; subst.
      destruct (IH Hrest) as (ed & Hed & Hdoc & Hlen & Hfa).
      destruct (mapM (part001Handler c doc) sels) as [outs|e] eqn:Hm;
        cbn [bind] in Hed; [|discriminate].
      injection Hed as <-. cbn [document selections] in *.
      destruct (refined_output _ _ _ part001_classifies part001_resolve_inside
                  part001_handler_refines doc s c Hs)
        as (_ & _ & _ & _ & out & _ & _ & _ & Hh & _ & _ & Hio & _).
      pose proof (built_result doc out (part001_handler_built doc s out c Hh)
                    (inside_one_line doc s Hs)) as [Hal _].
      cbn [mapM]. rewrite Hh. cbn [bind]. rewrite Hm. cbn [bind].
      eexists. split; [reflexivity|].
      cbn [document selections List.length].
      split; [reflexivity|]. split; [lia|]. constructor; auto.
  - intros Hlc. induction sels as [|s sels IH].
    + eexists. cbn. repeat split; constructor.
    + destruct IH as (ed & Hed & Hdoc & Hlen & Hfa).
      destruct (mapM (extensionHandler c doc) sels) as [outs|e] eqn:Hm;
        cbn [bind] in Hed; [|discriminate].
      injection Hed as <-. cbn [document selections] in *.
      destruct (extension_handler_total doc s c Hlc) as [out Hh].
      pose proof (built_result doc out (extension_handler_built doc s out c Hh)
                    Hlc) as [Hal Hio].
      cbn [mapM]. rewrite Hh. cbn [bind]. rewrite Hm. cbn [bind].
      eexists. split; [reflexivity|].
      cbn [document selections List.length].
      split; [reflexivity|]. split; [lia|]. constructor; auto.
Qed.

Lemma commands_keep_cursors_inside_witness :
  exists editor',
    part001Command OutwardsDown (mkEditor doc5 [caretAt 1 2; caretAt 4 0]) = Ok editor'
    /\ List.length (selections editor') = 2%nat.
Proof.
  destruct (commands_keep_cursors_inside
              (mkEditor doc5 [caretAt 1 2; caretAt 4 0]) OutwardsDown)
    as [H _].
  destruct H as (ed & Hed & _ & Hlen & _).
  - repeat constructor.
  - exists ed. split; [exact Hed | exact Hlen].
Defined.

(** ** Shrinking again and again *)

(** One inward step on a block of whole lines or on a caret at column 0. *)
Lemma inward_on_block (doc : TextDocument) (t b : Z) (pin : bool) :
  0 <= t <= b -> b < lineCount doc ->
  (part001Handler InwardsDown doc (lineBlock t b pin)
   = Ok (lineBlock t (Z.max (b - 1) t) false)
   /\ extensionHandler InwardsDown doc (lineBlock t b pin)
      = Ok (lineBlock t (Z.max (b - 1) t) false))
  /\ (part001Handler InwardsUp doc (lineBlock t b pin)
      = Ok (if b - t <=? 1 then lineBlock t t true else lineBlock (t + 1) b true)
      /\ extensionHandler InwardsUp doc (lineBlock t b pin)
         = Ok (if b - t <=? 1 then lineBlock t t true
               else lineBlock (t + 1) b true)).
Proof.
  intros Ht Hb.
  destruct (Z.eq_dec t b) as [Heq | Hne].
  - subst b.
    assert (He : isEmpty (lineBlock t t pin) = true).
    { destruct pin; unfold lineBlock; apply (isEmpty_caretAt (Z.to_N t) 0). }
    assert (Hin : insideDocument doc (lineBlock t t pin)).
    { unfold insideDocument. destruct (lineBlock_ends t t pin) as [_ ->]; [lia|].
      posfields. lia. }
    assert (Ha : lineZ (active (lineBlock t t pin)) = t).
    { destruct pin; unfold lineBlock; cbn [active]; posfields; lia. }
    pose proof (caret_handlers doc _ InwardsDown He Hin) as [_ Hd].
    pose proof (caret_handlers doc _ InwardsUp He Hin) as [_ Hu].
    rewrite Ha in Hd, Hu.
    unfold rangeAfter, isStepped, stepRange, clamp in Hd, Hu.
    cbn [isOutward negb andb pinsBottom] in Hd, Hu.
    replace (t + 1 - t <=? 1) with true in Hd, Hu by (symmetry; apply Z.leb_le; lia).
    replace (t - t <=? 1) with true by (symmetry; apply Z.leb_le; lia).
    replace (Z.max 0 (Z.min (lineCount doc - 1) (t + 1 - 1))) with t in Hu by lia.
    rewrite buildSelection_block in Hd, Hu by lia.
    replace (Z.max (t - 1) t) with t by lia.
    split; assumption.
  - pose proof (handlers_on_block doc t b pin InwardsDown ltac:(lia) Hb) as Hd.
    pose proof (handlers_on_block doc t b pin InwardsUp ltac:(lia) Hb) as Hu.
    unfold stepRange, clamp in Hd, Hu. cbn [pinsBottom] in Hd, Hu.
    destruct (b - t <=? 1) eqn:Hsz.
    + apply Z.leb_le in Hsz.
      replace (Z.max 0 (Z.min (lineCount doc - 1) (b - 1))) with t in Hu by lia.
      rewrite buildSelection_block in Hd, Hu by lia.
      replace (Z.max (b - 1) t) with t by lia.
      split; assumption.
    + apply Z.leb_gt in Hsz.
      rewrite buildSelection_block in Hd, Hu by lia.
      replace (Z.max (b - 1) t) with (b - 1) by lia.
      split; assumption.
Qed.

(** From a block of whole lines that ends before the last line, [n >= 1]
    calls of an inward command take [n] lines off the free side and stop
    at a caret, where they stay: [inwardsDown] ends as the caret at column
    0 of the first line of the block, [inwardsUp] as the caret at column 0
    of its last line.  In either file. *)
Theorem inward_repeated (doc : TextDocument) (t b : Z) (pin : bool) (n : nat) :
  0 <= t < b -> b < lineCount doc -> (1 <= n)%nat ->
  (repeatM n (part001Handler InwardsDown doc) (lineBlock t b pin)
   = Ok (lineBlock t (Z.max (b - Z.of_nat n) t) false)
   /\ repeatM n (extensionHandler InwardsDown doc) (lineBlock t b pin)
      = Ok (lineBlock t (Z.max (b - Z.of_nat n) t) false))
  /\ (repeatM n (part001Handler InwardsUp doc) (lineBlock t b pin)
      = Ok (if Z.of_nat n <? b - t then lineBlock (t + Z.of_nat n) b true
            else lineBlock (b - 1) (b - 1) true)
      /\ repeatM n (extensionHandler InwardsUp doc) (lineBlock t b pin)
         = Ok (if Z.of_nat n <? b - t then lineBlock (t + Z.of_nat n) b true
               else lineBlock (b - 1) (b - 1) true)).
Proof.
  intros Ht Hb Hn. destruct n as [|m]; [lia|]. clear Hn.
  induction m as [|m IH].
  - cbn [repeatM bind].
    destruct (inward_on_block doc t b pin ltac:(lia) Hb) as [[D1 D2] [U1 U2]].
    rewrite D1, D2, U1, U2.
    replace (Z.max (b - Z.of_nat 1) t) with (Z.max (b - 1) t) by lia.
    split; [split; reflexivity|].
    destruct (b - t <=? 1) eqn:Hsz; destruct (Z.of_nat 1 <? b - t) eqn:Hlt;
      try apply Z.leb_le in Hsz; try apply Z.leb_gt in Hsz;
      try apply Z.ltb_lt in Hlt; try apply Z.ltb_ge in Hlt; try lia;
      split; do 2 f_equal; lia.
  - destruct IH as [[D1 D2] [U1 U2]].
    split; split.
    + change (repeatM (S (S m)) (part001Handler InwardsDown doc) (lineBlock t b pin))
        with (s' <- repeatM (S m) (part001Handler InwardsDown doc) (lineBlock t b pin) ;;
              part001Handler InwardsDown doc s').
      rewrite D1. cbn [bind].
      destruct (inward_on_block doc t (Z.max (b - Z.of_nat (S m)) t) false
                  ltac:(lia) ltac:(lia)) as [[-> _] _].
      do 2 f_equal. lia.
    + change (repeatM (S (S m)) (extensionHandler InwardsDown doc) (lineBlock t b pin))
        with (s' <- repeatM (S m) (extensionHandler InwardsDown doc) (lineBlock t b pin) ;;
              extensionHandler InwardsDown doc s').
      rewrite D2. cbn [bind].
      destruct (inward_on_block doc t (Z.max (b - Z.of_nat (S m)) t) false
                  ltac:(lia) ltac:(lia)) as [[_ ->] _].
      do 2 f_equal. lia.
    + change (repeatM (S (S m)) (part001Handler InwardsUp doc) (lineBlock t b pin))
        with (s' <- repeatM (S m) (part001Handler InwardsUp doc) (lineBlock t b pin) ;;
              part001Handler InwardsUp doc s').
      rewrite U1. cbn [bind].
      destruct (Z.of_nat (S m) <? b - t) eqn:Hlt;
        [apply Z.ltb_lt in Hlt | apply Z.ltb_ge in Hlt].
      * destruct (inward_on_block doc (t + Z.of_nat (S m)) b true
                    ltac:(lia) Hb) as [_ [-> _]].
        destruct (b - (t + Z.of_nat (S m)) <=? 1) eqn:Hsz;
          destruct (Z.of_nat (S (S m)) <? b - t) eqn:Hlt';
          try apply Z.leb_le in Hsz; try apply Z.leb_gt in Hsz;
          try apply Z.ltb_lt in Hlt'; try apply Z.ltb_ge in Hlt'; try lia;
          do 2 f_equal; lia.
      * destruct (inward_on_block doc (b - 1) (b - 1) true
                    ltac:(lia) ltac:(lia)) as [_ [-> _]].
        replace (b - 1 - (b - 1) <=? 1) with true by (symmetry; apply Z.leb_le; lia).
        replace (Z.of_nat (S (S m)) <? b - t) with false
          by (symmetry; apply Z.ltb_ge; lia).
        reflexivity.
    + change (repeatM (S (S m)) (extensionHandler InwardsUp doc) (lineBlock t b pin))
        with (s' <- repeatM (S m) (extensionHandler InwardsUp doc) (lineBlock t b pin) ;;
              extensionHandler InwardsUp doc s').
      rewrite U2. cbn [bind].
      destruct (Z.of_nat (S m) <? b - t) eqn:Hlt;
        [apply Z.ltb_lt in Hlt | apply Z.ltb_ge in Hlt].
      * destruct (inward_on_block doc (t + Z.of_nat (S m)) b true
                    ltac:(lia) Hb) as [_ [_ ->]].
        destruct (b - (t + Z.of_nat (S m)) <=? 1) eqn:Hsz;
          destruct (Z.of_nat (S (S m)) <? b - t) eqn:Hlt';
          try apply Z.leb_le in Hsz; try apply Z.leb_gt in Hsz;
          try apply Z.ltb_lt in Hlt'; try apply Z.ltb_ge in Hlt'; try lia;
          do 2 f_equal; lia.
      * destruct (inward_on_block doc (b - 1) (b - 1) true
                    ltac:(lia) ltac:(lia)) as [_ [_ ->]].
        replace (b - 1 - (b - 1) <=? 1) with true by (symmetry; apply Z.leb_le; lia).
        replace (Z.of_nat (S (S m)) <? b - t) with false
          by (symmetry; apply Z.ltb_ge; lia).
        reflexivity.
Qed.

(** Lines 1 to 3 of [doc5]: three times [inwardsUp] and more leave the
    caret on line 3. *)
Lemma inward_repeated_witness :
  repeatM 4 (part001Handler InwardsUp doc5) (lineBlock 1 4 false)
  = Ok (caretAt 3 0)
  /\ repeatM 2 (extensionHandler InwardsDown doc5) (lineBlock 1 4 true)
     = Ok (mkSelection (pos 1 0) (pos 2 0)).
Proof.
  destruct (inward_repeated doc5 1 4 false 4) as [_ [U _]];
    [lia | cbv; reflexivity | lia |].
  destruct (inward_repeated doc5 1 4 true 2) as [[_ D] _];
    [lia | cbv; reflexivity | lia |].
  split; [rewrite U | rewrite D]; reflexivity.
Defined.

(** ** The direction of the input *)

Lemma reversed_ends (sel : Selection) :
  start (reversed sel) = start sel /\ end_ (reversed sel) = end_ sel.
Proof.
  destruct sel as [a b]. unfold reversed, start, end_. cbn [anchor active].
  unfold isBefore.
  zbool; split; try reflexivity; try lia; apply position_eq; lia.
Qed.

Lemma reversed_empty (sel : Selection) :
  isEmpty sel = true -> reversed sel = sel.
Proof.
  intros He. destruct (empty_caret sel He) as (_ & _ & Ha).
  destruct sel as [a b]. unfold reversed. cbn [anchor active] in *.
  now rewrite Ha.
Qed.

(** The commands do not look at the direction of the selection they are
    given: the selection made from the active end to the anchor is
    classified, resolved and transformed like the one made from the anchor
    to the active end, in either file.  Only the result has a direction,
    the one the command pins. *)
Theorem direction_ignored (doc : TextDocument) (sel : Selection) (c : Command) :
  Part001.hasPartialLineSelection (reversed sel) doc
  = Part001.hasPartialLineSelection sel doc
  /\ Part001.fullLineRange (reversed sel) doc = Part001.fullLineRange sel doc
  /\ Extension.fullLineRange (reversed sel) doc = Extension.fullLineRange sel doc
  /\ part001Handler c doc (reversed sel) = part001Handler c doc sel
  /\ extensionHandler c doc (reversed sel) = extensionHandler c doc sel.
Proof.
  destruct (isEmpty sel) eqn:He.
  - rewrite (reversed_empty sel He). repeat split; reflexivity.
  - destruct (reversed_ends sel) as [Hs Hen].
    assert (Her : isEmpty (reversed sel) = false).
    { unfold isEmpty in *. now rewrite Hs, Hen. }
    assert (Hmin : pMinOf (reversed sel) = pMinOf sel).
    { now rewrite (nonempty_pMin _ Her), (nonempty_pMin _ He). }
    assert (Hmax : pMaxOf (reversed sel) = pMaxOf sel).
    { now rewrite (nonempty_pMax _ Her), (nonempty_pMax _ He). }
    assert (Hp : Part001.hasPartialLineSelection (reversed sel) doc
                 = Part001.hasPartialLineSelection sel doc).
    { unfold Part001.hasPartialLineSelection. now rewrite Her, He, Hmin, Hmax. }
    assert (Hr : Part001.fullLineRange (reversed sel) doc
                 = Part001.fullLineRange sel doc).
    { unfold Part001.fullLineRange. now rewrite Her, He, Hp, Hmin, Hmax. }
    assert (Hx : Extension.fullLineRange (reversed sel) doc
                 = Extension.fullLineRange sel doc).
    { unfold Extension.fullLineRange. now rewrite Her, He, Hmin, Hmax. }
    split; [exact Hp|]. split; [exact Hr|]. split; [exact Hx|].
    split; destruct c; cbn [part001Handler extensionHandler];
      [ unfold Part001.outwardsUpSel | unfold Part001.inwardsUpSel
      | unfold Part001.outwardsDownSel | unfold Part001.inwardsDownSel
      | unfold Extension.outwardsUpSel | unfold Extension.inwardsUpSel
      | unfold Extension.outwardsDownSel | unfold Extension.inwardsDownSel ];
      rewrite ?Her, ?He, ?Hp, ?Hr, ?Hx; reflexivity.
Qed.

Lemma direction_ignored_witness :
  part001Handler OutwardsDown doc5 (mkSelection (pos 2 3) (pos 1 1))
  = part001Handler OutwardsDown doc5 (mkSelection (pos 1 1) (pos 2 3)).
Proof.
  exact (proj1 (proj2 (proj2 (proj2
    (direction_ignored doc5 (mkSelection (pos 1 1) (pos 2 3)) OutwardsDown))))).
Defined.

(** ** The classification and the two resolvers, in terms of the ends *)

(** What the second file takes for full lines, for a selection inside the
    document: a caret; or a selection from column 0 that ends at column 0
    of a later line; or a selection from column 0 that stays on its line
    and reaches the end of the line's text or beyond. *)
Theorem full_lines_exactly (doc : TextDocument) (sel : Selection) :
  insideDocument doc sel ->
  (Part001.hasPartialLineSelection sel doc = Ok false
   <-> (isEmpty sel = true
        \/ (characterZ (start sel) = 0
            /\ ((lineZ (start sel) < lineZ (end_ sel)
                 /\ characterZ (end_ sel) = 0)
                \/ (lineZ (start sel) = lineZ (end_ sel)
                    /\ exists s,
                         nth_error (lines doc) (Z.to_nat (lineZ (start sel)))
                         = Some s
                         /\ Z.of_nat (String.length s) <= characterZ (end_ sel))))))
  /\ (Part001.hasPartialLineSelection sel doc = Ok true
      \/ Part001.hasPartialLineSelection sel doc = Ok false).
Proof.
  intros Hin. pose proof Hin as Hin'. unfold insideDocument in Hin'.
  pose proof (start_le_end sel) as Hle. pose proof (lineZ_nonneg (start sel)) as Hs0.
  destruct (isEmpty sel) eqn:He.
  - rewrite (hasPartial_empty doc sel He). split; [|auto].
    split; auto.
  - rewrite (hasPartial_nonempty doc sel He).
    pose proof (nonempty_lt sel He) as Hlt.
    destruct (lineAt_inside doc (lineZ (start sel))) as (s & Hn & Hat); [lia|].
    destruct (characterZ (start sel) =? 0) eqn:Hc0;
      [apply Z.eqb_eq in Hc0 | apply Z.eqb_neq in Hc0]; cbn [negb].
    + destruct (lineZ (start sel) =? lineZ (end_ sel)) eqn:Hl;
        [apply Z.eqb_eq in Hl | apply Z.eqb_neq in Hl].
      * rewrite Hat. cbn [bind]. unfold textLength. cbn [text].
        destruct (characterZ (end_ sel) <? Z.of_nat (String.length s)) eqn:Hlen;
          [apply Z.ltb_lt in Hlen | apply Z.ltb_ge in Hlen];
          (split; [|auto]); split.
        -- discriminate.
        -- intros [H | (_ & [[H _] | (_ & s' & Hn' & Hlen')])];
             [discriminate | lia |].
           rewrite Hn in Hn'. injection Hn' as <-. lia.
        -- intros _. right. split; [exact Hc0|]. right. split; [exact Hl|].
           exists s. split; [exact Hn | exact Hlen].
        -- reflexivity.
      * destruct (characterZ (end_ sel) =? 0) eqn:Hce;
          [apply Z.eqb_eq in Hce | apply Z.eqb_neq in Hce]; cbn [negb];
          (split; [|auto]); split.
        -- intros _. right. split; [exact Hc0|]. left. split; [lia | exact Hce].
        -- reflexivity.
        -- discriminate.
        -- intros [H | (_ & [[_ H] | (H & _)])]; [discriminate | lia | lia].
    + split; [|auto]. split; [discriminate|].
      intros [H | (H & _)]; [discriminate | lia].
Qed.

Lemma full_lines_exactly_witness :
  Part001.hasPartialLineSelection (mkSelection (pos 1 0) (pos 1 4)) doc5 = Ok false.
Proof.
  apply (full_lines_exactly doc5 (mkSelection (pos 1 0) (pos 1 4))).
  - cbv; reflexivity.
  - right. split; [reflexivity|]. right. split; [reflexivity|].
    exists "beta"%string. split; [reflexivity|]. cbv; discriminate.
Defined.

(** Where the two resolvers differ.  For a selection inside the document
    the resolver of [src/extension.ts] returns the lines the selection
    covers, from the line of its start to the line after its last line,
    at least one line and within the document; the resolver of the second
    file returns the same range exactly for carets, for partial selections
    and for selections that end at column 0, and otherwise (a selection
    from column 0 to the end of the text of its line) the range without
    any line at that line. *)
Theorem resolvers_agree_exactly (doc : TextDocument) (sel : Selection) :
  insideDocument doc sel ->
  Extension.fullLineRange sel doc = Ok (lineZ (start sel), lastLine sel + 1)
  /\ lineZ (start sel) < lastLine sel + 1 <= lineCount doc
  /\ (endsOnBoundary doc sel ->
      Part001.fullLineRange sel doc = Extension.fullLineRange sel doc)
  /\ (~ endsOnBoundary doc sel ->
      Part001.fullLineRange sel doc = Ok (lineZ (start sel), lineZ (start sel))).
Proof.
  intros Hin.
  destruct (extension_fullLineRange_guard doc sel Hin)
    as (xt & xb & Hx & Hxt & Hxb).
  pose proof (extension_resolved_bottom doc sel xt xb Hin Hx) as Hxbot.
  subst xt xb. split; [exact Hx|]. split; [exact Hxb|].
  destruct (part001_classifies doc sel Hin) as [partial Hp].
  destruct (part001_resolves doc sel partial Hin Hp)
    as (top & botEx & Hr & Htop & _ & _ & _ & _ & _ & Hfull).
  split.
  - intros Hreg.
    rewrite Hr, Hx, (part001_resolved_bottom doc sel top botEx Hin Hreg Hr), Htop.
    reflexivity.
  - intros Hnreg.
    destruct (isEmpty sel) eqn:He.
    { destruct Hnreg. left. exact He. }
    destruct partial.
    { destruct Hnreg. right. left. exact Hp. }
    assert (Hce : characterZ (end_ sel) <> 0).
    { intros Hce. apply Hnreg. right. right. exact Hce. }
    rewrite Hr, Htop, (Hfull eq_refl eq_refl). do 2 f_equal.
    rewrite (hasPartial_nonempty doc sel He) in Hp.
    pose proof (nonempty_lt sel He).
    revert Hp. zbool; try lia; try discriminate; intros _; lia.
Qed.

Lemma resolvers_agree_exactly_witness :
  Part001.fullLineRange (mkSelection (pos 1 2) (pos 3 1)) doc5
  = Extension.fullLineRange (mkSelection (pos 1 2) (pos 3 1)) doc5
  /\ Extension.fullLineRange (mkSelection (pos 1 2) (pos 3 1)) doc5 = Ok (1, 4).
Proof.
  destruct (resolvers_agree_exactly doc5 (mkSelection (pos 1 2) (pos 3 1)))
    as (Hx & _ & Hsame & _); [cbv; reflexivity|].
  split.
  - apply Hsame. right. left. reflexivity.
  - rewrite Hx. reflexivity.
Defined.

(** * The claims on which the two files differ *)

(** ** C1: snapping and stepping *)




(** ** C3: the pinned bottom *)

(** C3 (evaluation at the failing input).  The last line of [doc5],
    selected in full bottom up, is what [outwardsUp] of the second file
    itself makes of a caret on that line: the selection covers line 4 and
    its bottom endpoint is the end of line 4.  A second [outwardsUp] does
    not collapse it, and returns the selection of line 3 alone: the bottom
    endpoint has moved from the end of line 4 to the end of line 3, and
    line 4 is let go.  [src/extension.ts] keeps the bottom endpoint and
    returns lines 3 and 4. *)
Theorem part001_outwardsUp_moves_bottom :
  Part001.outwardsUpSel doc5 (caretAt 4 2) = Ok (mkSelection (pos 4 7) (pos 4 0))
  /\ Part001.hasPartialLineSelection (mkSelection (pos 4 7) (pos 4 0)) doc5 = Ok false
  /\ end_ (mkSelection (pos 4 7) (pos 4 0)) = pos 4 7
  /\ lastLine (mkSelection (pos 4 7) (pos 4 0)) = 4
  /\ Part001.outwardsUpSel doc5 (mkSelection (pos 4 7) (pos 4 0))
     = Ok (mkSelection (pos 4 0) (pos 3 0))
  /\ isEmpty (mkSelection (pos 4 0) (pos 3 0)) = false
  /\ end_ (mkSelection (pos 4 0) (pos 3 0)) = pos 4 0
  /\ lastLine (mkSelection (pos 4 0) (pos 3 0)) = 3
  /\ Extension.outwardsUpSel doc5 (mkSelection (pos 4 7) (pos 4 0))
     = Ok (mkSelection (pos 4 7) (pos 3 0))
  /\ lastLine (mkSelection (pos 4 7) (pos 3 0)) = 4.
Proof. repeat split; reflexivity. Qed.

(** ** C4: an outward command that shrinks *)

(** C4 (evaluation at the failing input).  Line 0 of [doc5] selected in
    full, from column 0 to the end of its text, is a non-empty selection
    that the second file classifies as full lines; [outwardsUp] of the
    second file returns the caret at column 0 of line 0, a smaller
    selection, where [src/extension.ts] returns the selection of line 0.
    On a document of one line the input is the one [outwardsDown] itself
    makes of a caret. *)
Theorem part001_outwardsUp_shrinks_first_line :
  isEmpty (mkSelection (pos 0 0) (pos 0 5)) = false
  /\ Part001.hasPartialLineSelection (mkSelection (pos 0 0) (pos 0 5)) doc5 = Ok false
  /\ Part001.fullLineRange (mkSelection (pos 0 0) (pos 0 5)) doc5 = Ok (0, 0)
  /\ Part001.outwardsUpSel doc5 (mkSelection (pos 0 0) (pos 0 5)) = Ok (caretAt 0 0)
  /\ isEmpty (caretAt 0 0) = true
  /\ Extension.outwardsUpSel doc5 (mkSelection (pos 0 0) (pos 0 5))
     = Ok (mkSelection (pos 1 0) (pos 0 0))
  /\ Part001.outwardsDownSel (mkDocument ["abc"%string]) (caretAt 0 1)
     = Ok (mkSelection (pos 0 0) (pos 0 3))
  /\ Part001.outwardsUpSel (mkDocument ["abc"%string]) (mkSelection (pos 0 0) (pos 0 3))
     = Ok (caretAt 0 0).
Proof. repeat split; reflexivity. Qed.

(** ** C8: where the commands return, and where they do not *)


